(** * remix-utils: theme session, theme rendering and request helpers

    A shallow embedding of [src/theme/index.tsx] and of the request helper
    file ([mergeHeaders], [getFromEnv], [withLocale]), followed by the
    properties of the specification that concern them.

    Strings are byte strings.  The only characters the code inspects (the
    separators [,] and [;], the letter [q]) are ASCII, so the byte view and
    JavaScript's UTF-16 view agree on every split and prefix test below. *)

From Stdlib Require Import ZArith String Ascii List Bool.
From Stdlib Require Import Floats.SpecFloat.
From stdpp Require Import base option list gmap strings.

Set Warnings "-register-all".

Local Open Scope string_scope.
Local Open Scope list_scope.

(** ** JavaScript values *)

Module JS.

(** The values that can flow through the code: what [JSON.parse] produces,
    what a session stores, and [undefined].  A number is an IEEE 754 double;
    an object is the ordered list of its own properties. *)
Inductive value : Type :=
  | VUndefined
  | VNull
  | VBool (b : bool)
  | VNum (f : spec_float)
  | VStr (s : string)
  | VArr (items : list value)
  | VObj (props : list (string * value)).

(** [typeof v]. *)
Definition typeof (v : value) : string :=
  match v with
  | VUndefined => "undefined"
  | VNull => "object"
  | VBool _ => "boolean"
  | VNum _ => "number"
  | VStr _ => "string"
  | VArr _ => "object"
  | VObj _ => "object"
  end.

(** ToBoolean: [undefined], [null], [false], [+0], [-0], [NaN] and the empty
    string are falsy, everything else is truthy. *)
Definition truthy (v : value) : bool :=
  match v with
  | VUndefined => false
  | VNull => false
  | VBool b => b
  | VNum (S754_zero _) => false
  | VNum S754_nan => false
  | VNum _ => true
  | VStr s => negb (String.eqb s "")
  | VArr _ => true
  | VObj _ => true
  end.

(** ToBoolean of a [string | null]. *)
Definition truthy_str (v : option string) : bool :=
  match v with
  | None => false
  | Some s => negb (String.eqb s "")
  end.

Inductive Error : Type :=
  | SyntaxError (message : string)
  | TypeError (message : string)
  | PlainError (message : string).

(** A completion: a returned value or a thrown exception (for an async
    function: a resolved or a rejected promise). *)
Inductive completion (A : Type) : Type :=
  | Return (a : A)
  | Throw (e : Error).
Arguments Return {A} a.
Arguments Throw {A} e.

(** Own-property lookup in an object literal's property list. *)
Fixpoint own_prop (props : list (string * value)) (key : string) : value :=
  match props with
  | [] => VUndefined
  | (k, v) :: rest => if String.eqb k key then v else own_prop rest key
  end.

(** [v.theme].  Reading a property of [null] or [undefined] throws; an
    object yields its own property or [undefined]; booleans, numbers, strings
    and arrays have no property of that name. *)
Definition get_theme_prop (v : value) : completion value :=
  match v with
  | VUndefined => Throw (TypeError "Cannot read properties of undefined (reading 'theme')")
  | VNull => Throw (TypeError "Cannot read properties of null (reading 'theme')")
  | VObj props => Return (own_prop props "theme")
  | _ => Return VUndefined
  end.

(** The store of mutable objects a computation works on, a completion and
    the store it leaves behind: the monad the async functions run in.  A
    thrown exception keeps the writes made before it. *)
Definition M (S A : Type) : Type := S -> completion A * S.

Definition ret {S A} (a : A) : M S A := fun st => (Return a, st).

Definition throw {S A} (e : Error) : M S A := fun st => (Throw e, st).

Definition bind {S A B} (m : M S A) (k : A -> M S B) : M S B :=
  fun st =>
    match m st with
    | (Return a, st') => k a st'
    | (Throw e, st') => (Throw e, st')
    end.

Definition lift {S A} (c : completion A) : M S A := fun st => (c, st).

End JS.
Import JS.

Notation "x <- m ;; k" := (bind m (fun x => k))
  (at level 100, m at next level, right associativity).

(** ** The platform: Fetch API objects *)

Definition lower_ascii (c : ascii) : ascii :=
  let n := nat_of_ascii c in
  if (65 <=? n)%nat && (n <=? 90)%nat then ascii_of_nat (n + 32) else c.

Fixpoint lowercase (s : string) : string :=
  match s with
  | EmptyString => EmptyString
  | String c rest => String (lower_ascii c) (lowercase rest)
  end.

Fixpoint join (sep : string) (l : list string) : string :=
  match l with
  | [] => ""
  | [x] => x
  | x :: rest => x ++ sep ++ join sep rest
  end.

(** Whether some character of [s] satisfies [p]. *)
Fixpoint contains (p : ascii -> bool) (s : string) : bool :=
  match s with
  | EmptyString => false
  | String c rest => p c || contains p rest
  end.

(** HTTP whitespace: tab, line feed, carriage return, space. *)
Definition http_whitespace (c : ascii) : bool :=
  let n := nat_of_ascii c in
  (n =? 9)%nat || (n =? 10)%nat || (n =? 13)%nat || (n =? 32)%nat.

Fixpoint trim_start (s : string) : string :=
  match s with
  | EmptyString => EmptyString
  | String c rest => if http_whitespace c then trim_start rest else s
  end.

Fixpoint trim_end (s : string) : string :=
  match s with
  | EmptyString => EmptyString
  | String c rest =>
      match trim_end rest with
      | EmptyString => if http_whitespace c then EmptyString else String c EmptyString
      | kept => String c kept
      end
  end.

(** The characters of an HTTP token, of which a header name is made. *)
Definition token_char (c : ascii) : bool :=
  let n := nat_of_ascii c in
  ((48 <=? n)%nat && (n <=? 57)%nat) || ((65 <=? n)%nat && (n <=? 90)%nat)
  || ((97 <=? n)%nat && (n <=? 122)%nat)
  || existsb (Nat.eqb n) [33; 35; 36; 37; 38; 39; 42; 43; 45; 46; 94; 95; 96; 124; 126].

(** ** A reference [JSON.parse]

    The parser of the JSON grammar without numbers and without [\u]
    escapes: on a text of that fragment it returns the value [JSON.parse]
    returns, and on any other text [None]. *)

Module JSON.

Inductive token : Type :=
  | LBrace | RBrace | LBracket | RBracket | Colon | Comma
  | Str (s : string)
  | Null | True_ | False_.

(** The character an escape sequence [\e] stands for. *)
Definition unescape (e : ascii) : option ascii :=
  let n := nat_of_ascii e in
  if (n =? 34)%nat || (n =? 92)%nat || (n =? 47)%nat then Some e
  else if (n =? 98)%nat then Some (ascii_of_nat 8)
  else if (n =? 102)%nat then Some (ascii_of_nat 12)
  else if (n =? 110)%nat then Some (ascii_of_nat 10)
  else if (n =? 114)%nat then Some (ascii_of_nat 13)
  else if (n =? 116)%nat then Some (ascii_of_nat 9)
  else None.

(** A string literal, read from behind its opening quote: its content and
    the text after its closing quote. *)
Fixpoint lex_string (s : string) : option (string * string) :=
  match s with
  | EmptyString => None
  | String c rest =>
      let n := nat_of_ascii c in
      if (n =? 34)%nat then Some (EmptyString, rest)
      else if (n =? 92)%nat then
        match rest with
        | String e rest' =>
            match unescape e, lex_string rest' with
            | Some c', Some (content, after) => Some (String c' content, after)
            | _, _ => None
            end
        | EmptyString => None
        end
      else if (n <? 32)%nat then None
      else
        match lex_string rest with
        | Some (content, after) => Some (String c content, after)
        | None => None
        end
  end.

(** [s] without its prefix [prefix], when it has it. *)
Fixpoint strip_prefix (prefix s : string) : option string :=
  match prefix, s with
  | EmptyString, _ => Some s
  | String a prefix', String b s' => if Ascii.eqb a b then strip_prefix prefix' s' else None
  | String _ _, EmptyString => None
  end.

Definition punctuation (c : ascii) : option token :=
  let n := nat_of_ascii c in
  if (n =? 123)%nat then Some LBrace
  else if (n =? 125)%nat then Some RBrace
  else if (n =? 91)%nat then Some LBracket
  else if (n =? 93)%nat then Some RBracket
  else if (n =? 58)%nat then Some Colon
  else if (n =? 44)%nat then Some Comma
  else None.

Fixpoint lex (fuel : nat) (s : string) : option (list token) :=
  match fuel with
  | O => None
  | S fuel =>
      match s with
      | EmptyString => Some []
      | String c rest =>
          if http_whitespace c then lex fuel rest
          else
            match punctuation c with
            | Some t => cons t <$> lex fuel rest
            | None =>
                if (nat_of_ascii c =? 34)%nat then
                  match lex_string rest with
                  | Some (content, after) => cons (Str content) <$> lex fuel after
                  | None => None
                  end
                else
                  match strip_prefix "null" s, strip_prefix "true" s, strip_prefix "false" s with
                  | Some after, _, _ => cons Null <$> lex fuel after
                  | _, Some after, _ => cons True_ <$> lex fuel after
                  | _, _, Some after => cons False_ <$> lex fuel after
                  | None, None, None => None
                  end
            end
      end
  end.

(** Defining a property: a key that is there already keeps its place and
    takes the new value. *)
Fixpoint set_prop (props : list (string * value)) (key : string) (v : value)
  : list (string * value) :=
  match props with
  | [] => [(key, v)]
  | (k, old) :: rest =>
      if String.eqb k key then (k, v) :: rest else (k, old) :: set_prop rest key v
  end.

Fixpoint parse_value (fuel : nat) (ts : list token) : option (value * list token) :=
  match fuel with
  | O => None
  | S fuel =>
      match ts with
      | Null :: rest => Some (VNull, rest)
      | True_ :: rest => Some (VBool true, rest)
      | False_ :: rest => Some (VBool false, rest)
      | Str s :: rest => Some (VStr s, rest)
      | LBracket :: RBracket :: rest => Some (VArr [], rest)
      | LBracket :: rest => parse_elements fuel rest []
      | LBrace :: RBrace :: rest => Some (VObj [], rest)
      | LBrace :: rest => parse_members fuel rest []
      | _ => None
      end
  end
with parse_elements (fuel : nat) (ts : list token) (items : list value)
  : option (value * list token) :=
  match fuel with
  | O => None
  | S fuel =>
      match parse_value fuel ts with
      | Some (v, Comma :: rest) => parse_elements fuel rest (items ++ [v])
      | Some (v, RBracket :: rest) => Some (VArr (items ++ [v]), rest)
      | _ => None
      end
  end
with parse_members (fuel : nat) (ts : list token) (props : list (string * value))
  : option (value * list token) :=
  match fuel with
  | O => None
  | S fuel =>
      match ts with
      | Str key :: Colon :: rest =>
          match parse_value fuel rest with
          | Some (v, Comma :: rest') => parse_members fuel rest' (set_prop props key v)
          | Some (v, RBrace :: rest') => Some (VObj (set_prop props key v), rest')
          | _ => None
          end
      | _ => None
      end
  end.

Definition parse (text : string) : option value :=
  match lex (S (String.length text)) text with
  | Some ts =>
      match parse_value (2 * length ts + 2) ts with
      | Some (v, []) => Some v
      | _ => None
      end
  | None => None
  end.

End JSON.

(** A [Headers] object: its header list in insertion order, names stored
    lower-cased (header names are case-insensitive).  The object is one a
    program may write to (its guard is ["none"], as after [new Headers()]).
    Names and values are byte strings, as all strings here. *)
Module Headers.

Definition t : Type := list (string * string).

Definition named (name : string) (entry : string * string) : bool :=
  String.eqb (fst entry) (lowercase name).

(** Appending to the header list a header whose value is normalized and
    valid already. *)
Definition push (h : t) (name value : string) : t :=
  h ++ [(lowercase name, value)].

(** Normalizing a value: the HTTP whitespace around it is removed. *)
Definition normalize (value : string) : string := trim_end (trim_start value).

(** A header name is a non-empty token. *)
Definition valid_name (name : string) : bool :=
  negb (String.eqb name "") && negb (contains (fun c => negb (token_char c)) name).

(** A normalized value is valid when it holds no NUL, LF or CR. *)
Definition valid_value (value : string) : bool :=
  negb (contains (fun c => let n := nat_of_ascii c in
                           (n =? 0)%nat || (n =? 10)%nat || (n =? 13)%nat) value).

(** [headers.append(name, value)]: the value is normalized, then name and
    value are validated, a [TypeError] being thrown when either is invalid,
    and only then is the header appended. *)
Definition append (h : t) (name value : string) : completion t :=
  let value := normalize value in
  if valid_name name && valid_value value
  then Return (push h name value)
  else Throw (TypeError "Headers.append: invalid header name or value").

(** [headers.get(name)]: the values of that name joined by [", "], or
    [null] when there is none. *)
Definition get (h : t) (name : string) : option string :=
  match List.filter (named name) h with
  | [] => None
  | found => Some (join ", " (List.map snd found))
  end.

Fixpoint set_first (h : t) (name value : string) : t :=
  match h with
  | [] => []
  | entry :: rest =>
      if named name entry
      then (lowercase name, value) :: List.filter (fun e => negb (named name e)) rest
      else entry :: set_first rest name value
  end.

(** [headers.set(name, value)], for a valid name and a normalized, valid
    value: overwrite the first header of that name and drop the others, or
    append when there is none. *)
Definition set (h : t) (name value : string) : t :=
  if existsb (named name) h then set_first h name value else push h name value.

(** [new Headers(init)] for a plain object [init], given by its entries,
    whose names and values are valid. *)
Definition of_record (init : list (string * string)) : t :=
  fold_left (fun h entry => push h (fst entry) (snd entry)) init [].

End Headers.

(** A parsed URL; [new URL(request.url)] of a request is always defined. *)
Module URL.
Record t : Type := { origin : string; pathname : string; search : string; hash : string }.
End URL.

Module Request.
Record t : Type := { url : URL.t; headers : Headers.t; body : option string }.
End Request.

Module Response.
Record t : Type := { status : Z; headers : Headers.t }.
End Response.

(** ** The platform: what the [remix] package and the JSON parser provide *)

Module Remix.

Record CookieOptions : Type := {
  name : string;
  secrets : list string;
  sameSite : string;
  path : string;
  expires : string;
  httpOnly : bool
}.

(** A cookie session storage.  [getSessionData] is what [getSession] makes
    of a [Cookie] header (or of none): it never fails, a missing, unsigned or
    tampered cookie gives some data all the same.  [serialize] is the
    [Set-Cookie] string [commitSession] makes of a session's data. *)
Record SessionStorage : Type := {
  getSessionData : option string -> gmap string value;
  serialize : gmap string value -> string
}.

(** The session objects allocated so far; a session is referred to by its
    position. *)
Abbreviation Sessions := (list (gmap string value)).
Abbreviation Session := nat.

(** [storage.getSession(cookieHeader)]: a fresh session object. *)
Definition getSession (storage : SessionStorage) (cookieHeader : option string)
  : M Sessions Session :=
  fun st => (Return (length st), st ++ [getSessionData storage cookieHeader]).

(** The key under which [session.flash(name, v)] keeps a value. *)
Definition flash (name : string) : string := "__flash_" ++ name ++ "__".

(** [session.get(name)]: the value under [name]; failing that, the value
    flashed under [name], which the read removes; failing that,
    [undefined]. *)
Definition session_get (session : Session) (name : string) : M Sessions value :=
  fun st =>
    match st !! session with
    | Some data =>
        match data !! name with
        | Some v => (Return v, st)
        | None =>
            match data !! flash name with
            | Some v => (Return v, <[session := delete (flash name) data]> st)
            | None => (Return VUndefined, st)
            end
        end
    | None => (Return VUndefined, st)
    end.

(** [session.set(name, v)]: in place. *)
Definition session_set (session : Session) (name : string) (v : value) : M Sessions unit :=
  fun st => (Return tt, alter (fun data => <[name := v]> data) session st).

(** [storage.commitSession(session)] *)
Definition commitSession (storage : SessionStorage) (session : Session) : M Sessions string :=
  fun st =>
    (Return (serialize storage (default ∅ (st !! session))), st).

(** [redirect(url, init)]: status 302, the headers of [init], [Location]
    set to [url].  The action passes it a URL path and the cookie
    [commitSession] made, which are valid header values. *)
Definition redirect (url : string) (init_headers : list (string * string)) : Response.t :=
  {| Response.status := 302;
     Response.headers := Headers.set (Headers.of_record init_headers) "Location" url |}.

End Remix.

(** Everything the theme code takes from outside the repository. *)
Record Platform : Type := {
  JSON_parse : string -> option value;
  createCookieSessionStorage : Remix.CookieOptions -> Remix.SessionStorage
}.

(** [await request.json()]: rejects on an absent body and on text that is
    not JSON. *)
Definition Request_json {S} (pf : Platform) (request : Request.t) : M S value :=
  match Request.body request with
  | None => throw (SyntaxError "Unexpected end of JSON input")
  | Some text =>
      match JSON_parse pf text with
      | Some data => ret data
      | None => throw (SyntaxError "Unexpected token in JSON")
      end
  end.

(** ** [src/theme/index.tsx]: the theme enumeration and its guard *)

(** [enum Theme { DARK = 'dark', LIGHT = 'light' }] *)
Inductive Theme : Type := DARK | LIGHT.

Definition Theme_value (t : Theme) : string :=
  match t with
  | DARK => "dark"
  | LIGHT => "light"
  end.

(** [const themes = Object.values(Theme)] *)
Definition themes : list string := [Theme_value DARK; Theme_value LIGHT].

(** [Array.prototype.includes] on an array of strings. *)
Definition includes (l : list string) (v : value) : bool :=
  match v with
  | VStr s => existsb (String.eqb s) l
  | _ => false
  end.

(** [const isTheme = (theme: unknown): theme is Theme =>
      typeof theme === 'string' && themes.includes(theme as Theme)] *)
Definition isTheme (theme : value) : bool :=
  String.eqb (typeof theme) "string" && includes themes theme.

(** ** [src/theme/index.tsx]: the theme session and the set-theme action *)

(** The object [getThemeSession] returns: three closures over one session. *)
Record ThemeSession : Type := {
  getTheme : M Remix.Sessions value;
  setTheme : value -> M Remix.Sessions unit;
  commit : M Remix.Sessions string
}.

Section initializeThemeSession.

Variable pf : Platform.
Variable secrets : list string.

Definition storage : Remix.SessionStorage :=
  createCookieSessionStorage pf
    {| Remix.name := "__theme";
       Remix.secrets := secrets;
       Remix.sameSite := "lax";
       Remix.path := "/";
       Remix.expires := "2098-04-21";
       Remix.httpOnly := true |}.

(** The object literal [getThemeSession] returns, closed over [session]. *)
Definition themeSessionOf (session : Remix.Session) : ThemeSession :=
  {| getTheme :=
       (theme <- Remix.session_get session "theme" ;;
        ret (if isTheme theme then theme else VNull));
     setTheme := fun theme => Remix.session_set session "theme" theme;
     commit := Remix.commitSession storage session |}.

Definition getThemeSession (request : Request.t) : M Remix.Sessions ThemeSession :=
  session <- Remix.getSession storage (Headers.get (Request.headers request) "Cookie") ;;
  ret (themeSessionOf session).

Definition setThemeAction (request : Request.t) : M Remix.Sessions Response.t :=
  let redirectURL := URL.pathname (Request.url request) in
  data <- Request_json pf request ;;
  guard <- (if truthy data then ret data else lift (get_theme_prop data)) ;;
  if negb (truthy guard) then ret (Remix.redirect redirectURL [])
  else
    theme <- lift (get_theme_prop data) ;;
    if negb (isTheme theme) then ret (Remix.redirect redirectURL [])
    else
      themeSession <- getThemeSession request ;;
      theme' <- lift (get_theme_prop data) ;;
      _ <- setTheme themeSession theme' ;;
      cookie <- commit themeSession ;;
      ret (Remix.redirect redirectURL [("Set-Cookie", cookie)]).

End initializeThemeSession.

(** ** [src/theme/index.tsx]: the theme context and the server-side markup *)

(** [const preferDarkMQ = '(prefers-color-scheme: dark)'] *)
Definition preferDarkMQ : string := "(prefers-color-scheme: dark)".

Definition dquote : string := String (ascii_of_nat 34) EmptyString.

(** [JSON.stringify] of a string without characters to escape. *)
Definition JSON_stringify_plain (s : string) : string := dquote ++ s ++ dquote.

Definition ssrThemeScript : string :=
  "
  ;(() => {
    const theme = window.matchMedia(" ++ JSON_stringify_plain preferDarkMQ ++ ").matches ? 'dark' : 'light';
    const documentCl = document.documentElement.classList;
    documentCl.add(theme);

    const meta = document.querySelector('meta[name=" ++ dquote ++ "color-scheme" ++ dquote ++ "]');

    if (!meta) return;

    if (theme === 'dark') {
      meta.content = 'dark light';
    } else {
      meta.content = 'light dark';
    }
  })();
".

(** A [Theme | null] as the value it is at run time. *)
Definition Theme_or_null (theme : option Theme) : value :=
  match theme with
  | Some t => VStr (Theme_value t)
  | None => VNull
  end.

(** [a === b] on strings and [null]. *)
Definition strict_eq (a b : value) : bool :=
  match a, b with
  | VStr x, VStr y => String.eqb x y
  | VNull, VNull => true
  | _, _ => false
  end.

(** The elements [SSRTheme] can return. *)
Inductive Element : Type :=
  | meta (name content : string) (suppressHydrationWarning : bool)
  | script (suppressHydrationWarning : bool) (dangerouslySetInnerHTML : string).

(** A child of a fragment: an element, or a boolean, which renders nothing. *)
Inductive Child : Type :=
  | Elem (e : Element)
  | BoolChild (b : bool).

(** What a fragment puts into the document. *)
Definition emitted (children : list Child) : list Element :=
  omap (fun c => match c with Elem e => Some e | BoolChild _ => None end) children.

Section React.

(** The type of the state setter of the context value. *)
Variable Dispatch : Type.

(** [type ThemeContextType = [Theme | null, Dispatch]] *)
Definition ThemeContextType : Type := (option Theme * Dispatch)%type.

(** [useTheme], given what [React.useContext(ThemeContext)] yields: the
    value of the nearest provider, or [null] outside any. *)
Definition useTheme (context : option ThemeContextType) : completion ThemeContextType :=
  match context with
  | None => Throw (PlainError "useTheme should be used inside ThemeProvider")
  | Some value => Return value
  end.

Definition SSRTheme (context : option ThemeContextType) (ssrTheme : option Theme)
  : completion (list Child) :=
  match useTheme context with
  | Throw e => Throw e
  | Return (theme, _) =>
      Return
        [ Elem (meta "color-scheme"
                  (if negb (truthy (Theme_or_null theme))
                      || strict_eq (Theme_or_null theme) (VStr (Theme_value DARK))
                   then "dark light" else "light dark")
                  true);
          if negb (truthy (Theme_or_null ssrTheme))
          then Elem (script true ssrThemeScript)
          else BoolChild false ]
  end.

End React.

(** ** The request helpers *)

(** The three shapes of a [HeadersInit]. *)
Inductive HeadersInit : Type :=
  | HeadersInstance (h : Headers.t)
  | PairArray (entries : list (string * string))
  | PlainObject (props : gmap string string).

(** The heap the header containers live in; a container is passed around as
    a reference, its position in the heap. *)
Abbreviation Heap := (list HeadersInit).
Abbreviation Ref := nat.

(** Update the object a reference points to, in place, unless computing
    its new content throws. *)
Definition modify (r : Ref) (f : HeadersInit -> completion HeadersInit) : M Heap unit :=
  fun heap =>
    match heap !! r with
    | Some object =>
        match f object with
        | Return object' => (Return tt, <[r := object']> heap)
        | Throw e => (Throw e, heap)
        end
    | None => (Return tt, heap)
    end.

Definition mergeHeaders (headers : Ref) (value : option string) : M Heap Ref :=
  match value with
  | None => ret headers
  | Some v =>
      if negb (truthy (VStr v)) then ret headers
      else
        _ <- modify headers (fun object =>
               match object with
               | HeadersInstance h =>
                   match Headers.append h "Set-Cookie" v with
                   | Return h' => Return (HeadersInstance h')
                   | Throw e => Throw e
                   end
               | PairArray entries => Return (PairArray (entries ++ [("Set-Cookie", v)]))
               | PlainObject props => Return (PlainObject (<["Set-Cookie" := v]> props))
               end) ;;
        ret headers
  end.

(** The names of the members an ordinary object inherits from
    [Object.prototype]; each of them is a function or an object, hence
    truthy. *)
Definition Object_prototype : list string :=
  ["constructor"; "__defineGetter__"; "__defineSetter__"; "hasOwnProperty";
   "__lookupGetter__"; "__lookupSetter__"; "isPrototypeOf"; "propertyIsEnumerable";
   "toString"; "valueOf"; "__proto__"; "toLocaleString"].

(** What reading a property of a mapping of strings can yield, short of
    [undefined]: the string of an entry of the mapping, or a member the
    mapping inherits. *)
Inductive property : Type :=
  | Entry (s : string)
  | Inherited (name : string).

(** [object[key]]: the mapping's own entry; failing that, the member of
    that name on its prototype chain; failing that, [undefined]. *)
Definition get_property (object : gmap string string) (key : string) : option property :=
  match object !! key with
  | Some s => Some (Entry s)
  | None =>
      if existsb (String.eqb key) Object_prototype then Some (Inherited key) else None
  end.

(** ToBoolean of what a property read yields. *)
Definition truthy_property (value : option property) : bool :=
  match value with
  | None => false
  | Some (Entry s) => negb (String.eqb s "")
  | Some (Inherited _) => true
  end.

Section getFromEnv.

(** [process.env] *)
Variable process_env : gmap string string.

(** [getFromEnv(key, object = process.env)]; [object] is [None] when the
    caller leaves it out.  The return type [string] is not checked at run
    time: what is returned is what the property read yields. *)
Definition getFromEnv (key : string) (object : option (gmap string string))
  : completion property :=
  let object := default process_env object in
  let value := get_property object key in
  if negb (truthy_property value)
  then Throw (PlainError (key ++ " should be in environment"))
  else Return (default (Entry "") value).

End getFromEnv.

(** [str.split(/[,;]/)] *)
Definition comma_or_semicolon (c : ascii) : bool :=
  Ascii.eqb c "," || Ascii.eqb c ";".

Fixpoint split (sep : ascii -> bool) (s : string) : list string :=
  match s with
  | EmptyString => [""]
  | String c rest =>
      if sep c then "" :: split sep rest
      else
        match split sep rest with
        | [] => [String c ""]
        | piece :: pieces => String c piece :: pieces
        end
  end.

(** [str.startsWith(prefix)] *)
Definition startsWith (str prefix : string) : bool := String.prefix prefix str.

Definition withLocale (request : Request.t) : list string :=
  let acceptedLanguages := Headers.get (Request.headers request) "accepted-language" in
  if negb (truthy_str acceptedLanguages) then ["en-US"]
  else
    List.filter (fun str => negb (startsWith str "q"))
      (split comma_or_semicolon (default "" acceptedLanguages)).

(** ** A platform and requests to evaluate the code on *)

(** The text of the body [{"theme":"<theme>"}]. *)
Definition theme_body (theme : string) : string :=
  "{" ++ dquote ++ "theme" ++ dquote ++ ":" ++ dquote ++ theme ++ dquote ++ "}".

(** [JSON.parse] on the handful of bodies the examples send; any other text
    counts as malformed. *)
Definition example_JSON_parse (text : string) : option value :=
  if String.eqb text "null" then Some VNull
  else if String.eqb text "0" then Some (VNum (S754_zero false))
  else if String.eqb text "{}" then Some (VObj [])
  else if String.eqb text (theme_body "dark") then Some (VObj [("theme", VStr "dark")])
  else if String.eqb text (theme_body "light") then Some (VObj [("theme", VStr "light")])
  else if String.eqb text (theme_body "blue") then Some (VObj [("theme", VStr "blue")])
  else None.

(** A storage whose cookie is the bare theme string. *)
Definition example_storage (options : Remix.CookieOptions) : Remix.SessionStorage :=
  {| Remix.getSessionData := fun cookieHeader =>
       match cookieHeader with
       | Some c => {[ "theme" := VStr c ]}
       | None => ∅
       end;
     Remix.serialize := fun data =>
       match data !! "theme" with
       | Some (VStr theme) => theme
       | _ => ""
       end |}.

Definition example_platform : Platform :=
  {| JSON_parse := example_JSON_parse;
     createCookieSessionStorage := example_storage |}.

Definition set_theme_url : URL.t :=
  {| URL.origin := "https://example.com";
     URL.pathname := "/_actions/set-theme";
     URL.search := "?_data=routes/_actions/set-theme";
     URL.hash := "" |}.

Definition post (headers : Headers.t) (body : option string) : Request.t :=
  {| Request.url := set_theme_url; Request.headers := headers; Request.body := body |}.

Definition request_without_body : Request.t := post [] None.

Definition request_not_json : Request.t := post [] (Some "theme=dark").

Definition request_null : Request.t := post [] (Some "null").

Definition request_blue : Request.t :=
  post [("cookie", "light")] (Some (theme_body "blue")).

Definition request_dark : Request.t :=
  post [("cookie", "light")] (Some (theme_body "dark")).

Definition get_with (headers : Headers.t) : Request.t :=
  {| Request.url :=
       {| URL.origin := "https://example.com"; URL.pathname := "/";
          URL.search := ""; URL.hash := "" |};
     Request.headers := headers;
     Request.body := None |}.

Definition request_en_fr : Request.t :=
  get_with (Headers.push [] "accepted-language" "en-US,fr;q=0.8").

Definition request_empty_language : Request.t :=
  get_with (Headers.push [] "accepted-language" "").

(** A heap with one container of each shape, each holding a cookie and
    another header. *)
Definition example_heap : Heap :=
  [HeadersInstance [("set-cookie", "a=1"); ("vary", "Cookie")];
   PairArray [("Set-Cookie", "a=1"); ("Vary", "Cookie")];
   PlainObject (<["Set-Cookie" := "a=1"]> {[ "Vary" := "Cookie" ]})].

(** ** [src/theme/index.tsx]: the provider *)

#[global] Instance Theme_eq_dec : EqDecision Theme.
Proof. solve_decision. Defined.

(** [getPreferredTheme], given what
    [window.matchMedia(preferDarkMQ).matches] answers. *)
Definition getPreferredTheme (matches : bool) : Theme :=
  if matches then DARK else LIGHT.

(** The initializer of the provider's state.  [ssrTheme] is the prop as it
    is at run time; [window] is [None] where [typeof window] is not
    ['object'], and holds the answer of the media query otherwise. *)
Definition ThemeProvider_initialState (ssrTheme : value) (window : option bool) : value :=
  if truthy ssrTheme then
    if includes themes ssrTheme then ssrTheme else VNull
  else
    match window with
    | None => VNull
    | Some matches => VStr (Theme_value (getPreferredTheme matches))
    end.

(** The application/x-www-form-urlencoded serializer behind
    [URLSearchParams.prototype.toString]. *)
Definition hex_digit (n : nat) : ascii :=
  ascii_of_nat (if (n <? 10)%nat then 48 + n else 55 + n).

Definition urlencoded_plain (c : ascii) : bool :=
  let n := nat_of_ascii c in
  ((48 <=? n)%nat && (n <=? 57)%nat) || ((65 <=? n)%nat && (n <=? 90)%nat)
  || ((97 <=? n)%nat && (n <=? 122)%nat)
  || Ascii.eqb c "*" || Ascii.eqb c "-" || Ascii.eqb c "." || Ascii.eqb c "_".

Fixpoint urlencode (s : string) : string :=
  match s with
  | EmptyString => EmptyString
  | String c rest =>
      if urlencoded_plain c then String c (urlencode rest)
      else if Ascii.eqb c " " then String "+" (urlencode rest)
      else
        String "%" (String (hex_digit (nat_of_ascii c / 16))
                      (String (hex_digit (nat_of_ascii c mod 16)) (urlencode rest)))
  end.

Definition URLSearchParams_toString (params : list (string * string)) : string :=
  join "&"
    (List.map (fun p : string * string => (urlencode (fst p) ++ "=" ++ urlencode (snd p))%string)
       params).

(** [JSON.stringify({ theme })] for a [Theme | null]. *)
Definition JSON_stringify_theme (theme : option Theme) : string :=
  "{" ++ JSON_stringify_plain "theme" ++ ":"
      ++ match theme with
         | Some t => JSON_stringify_plain (Theme_value t)
         | None => "null"
         end
      ++ "}".

(** The arguments of one [fetch] call. *)
Module FetchCall.
Record t : Type := {
  url : string;
  method : string;
  body : string;
  headers : list (string * string)
}.
End FetchCall.

(** The request the first effect sends once mounted. *)
Definition persistTheme (theme : option Theme) : FetchCall.t :=
  let searchParams := [("_data", "routes/_actions/set-theme")] in
  {| FetchCall.url := "/_actions/set-theme?" ++ URLSearchParams_toString searchParams;
     FetchCall.method := "POST";
     FetchCall.body := JSON_stringify_theme theme;
     FetchCall.headers := [("Content-Type", "application/json")] |}.

(** One run of the effect that depends on [theme]: the new content of the
    [mounted] ref and the requests sent. *)
Definition themeEffect (theme : option Theme) (mounted : bool) : bool * list FetchCall.t :=
  if negb mounted then (true, [])
  else (mounted, [persistTheme theme]).

(** A mounted provider: its state, its [mounted] ref, and the requests it
    has sent so far, oldest first. *)
Module Provider.
Record t : Type := {
  theme : option Theme;
  mounted : bool;
  sent : list FetchCall.t
}.
End Provider.

(** The first commit: the state is the initial one and the effect runs,
    once (a development build in strict mode would run it again). *)
Definition mount (initial : option Theme) : Provider.t :=
  let '(mounted, calls) := themeEffect initial false in
  {| Provider.theme := initial; Provider.mounted := mounted; Provider.sent := calls |}.

(** What can reach a mounted provider's setter: a consumer calls the setter
    of the context (with a value or an updater), or the media query fires
    ['change']. *)
Inductive Event : Type :=
  | SetTheme (action : option Theme -> option Theme)
  | MediaChange (matches : bool).

(** The ['change'] handler: [setTheme(media.matches ? Theme.DARK : Theme.LIGHT)]. *)
Definition handler (matches : bool) : option Theme -> option Theme :=
  fun _ => Some (if matches then DARK else LIGHT).

(** The state update an event queues. *)
Definition action_of (e : Event) : option Theme -> option Theme :=
  match e with
  | SetTheme action => action
  | MediaChange matches => handler matches
  end.

(** The theme after the updates of a batch, applied in the order queued. *)
Definition after_batch (theme : option Theme) (batch : list Event) : option Theme :=
  fold_left (fun theme e => action_of e theme) batch theme.

(** One commit of a mounted provider.  React applies the updates queued
    since the last commit, in order, commits once, and runs the effect only
    if [theme], its dependency, has changed since the last commit.  Which
    setter calls share a commit is React's scheduling (each call alone, or
    all calls of one tick together, by version and calling context); a batch
    is the calls of one commit. *)
Definition rerender (p : Provider.t) (batch : list Event) : Provider.t :=
  let theme := after_batch (Provider.theme p) batch in
  if decide (theme = Provider.theme p) then p
  else
    let '(mounted, calls) := themeEffect theme (Provider.mounted p) in
    {| Provider.theme := theme;
       Provider.mounted := mounted;
       Provider.sent := Provider.sent p ++ calls |}.

Definition run (initial : option Theme) (batches : list (list Event)) : Provider.t :=
  fold_left rerender batches (mount initial).

(** The theme after each commit, from [theme] on. *)
Fixpoint committed (theme : option Theme) (batches : list (list Event))
  : list (option Theme) :=
  match batches with
  | [] => []
  | batch :: rest =>
      let theme' := after_batch theme batch in
      theme' :: committed theme' rest
  end.

(** The themes of a list that differ from the one before them, the first
    from [previous]. *)
Fixpoint changes (previous : option Theme) (themes : list (option Theme))
  : list (option Theme) :=
  match themes with
  | [] => []
  | theme :: rest =>
      if decide (theme = previous) then changes previous rest
      else theme :: changes theme rest
  end.

(** ** [src/theme/index.tsx]: what [ssrThemeScript] does when it runs *)

(** The part of the document the script touches: the class list of the root
    element and the content of the first [meta[name="color-scheme"]], if
    there is one. *)
Record Document : Type := {
  classList : list string;
  colorScheme : option string
}.

(** [classList.add(token)]: a token already there is not added again. *)
Definition classList_add (classes : list string) (token : string) : list string :=
  if existsb (String.eqb token) classes then classes else classes ++ [token].

Definition run_ssrThemeScript (matches : bool) (document : Document) : Document :=
  let theme := if matches then "dark" else "light" in
  let documentCl := classList_add (classList document) theme in
  match colorScheme document with
  | None => {| classList := documentCl; colorScheme := None |}
  | Some _ =>
      {| classList := documentCl;
         colorScheme :=
           Some (if String.eqb theme "dark" then "dark light" else "light dark") |}
  end.

(** The session data a request's [Cookie] header decodes to. *)
Definition cookie_data (pf : Platform) (secrets : list string) (request : Request.t)
  : gmap string value :=
  Remix.getSessionData (storage pf secrets)
    (Headers.get (Request.headers request) "Cookie").

(** The four ways [setThemeAction] can end: the body cannot be read; the
    parsed body is [null] (or [undefined]) and reading its [theme] throws; the
    theme fails the guard; the theme is stored. *)
Inductive outcome (pf : Platform) (secrets : list string)
    (request : Request.t) (st : Remix.Sessions)
  : completion Response.t * Remix.Sessions -> Prop :=
  | unreadable message :
      Request.body request = None \/
      (exists text, Request.body request = Some text /\ JSON_parse pf text = None) ->
      outcome pf secrets request st (Throw (SyntaxError message), st)
  | no_object text data message :
      Request.body request = Some text -> JSON_parse pf text = Some data ->
      data = VNull \/ data = VUndefined ->
      outcome pf secrets request st (Throw (TypeError message), st)
  | rejected text data theme :
      Request.body request = Some text -> JSON_parse pf text = Some data ->
      get_theme_prop data = Return theme -> isTheme theme = false ->
      outcome pf secrets request st
        (Return (Remix.redirect (URL.pathname (Request.url request)) []), st)
  | stored text data theme :
      Request.body request = Some text -> JSON_parse pf text = Some data ->
      get_theme_prop data = Return theme -> isTheme theme = true ->
      outcome pf secrets request st
        (Return (Remix.redirect (URL.pathname (Request.url request))
                   [("Set-Cookie",
                     Remix.serialize (storage pf secrets)
                       (<["theme" := theme]> (cookie_data pf secrets request)))]),
         st ++ [<["theme" := theme]> (cookie_data pf secrets request)]).


(** What [session.get('theme')] finds in a session's data: the theme, or
    else the flashed theme, or else [undefined]; and the data it leaves: the
    flashed theme is gone once it has been read. *)
Definition stored_theme (data : gmap string value) : value :=
  match data !! "theme" with
  | Some v => v
  | None => default VUndefined (data !! "__flash_theme__")
  end.

Definition after_read (data : gmap string value) : gmap string value :=
  match data !! "theme" with
  | Some _ => data
  | None => delete "__flash_theme__" data
  end.

(** ** The browser's side of the cookie *)

(** The [name=value] pair of a [Set-Cookie] string: the text before its
    first [;]. *)
Fixpoint cookie_pair (setCookie : string) : string :=
  match setCookie with
  | EmptyString => EmptyString
  | String c rest => if Ascii.eqb c ";" then EmptyString else String c (cookie_pair rest)
  end.

(** The [Cookie] header a browser that holds no other cookie sends after a
    response, having sent [sent] before: the pair of the response's
    [Set-Cookie] when it has one, the same header as before otherwise. *)
Definition cookie_sent_next (sent : option string) (response : Response.t) : option string :=
  match Headers.get (Response.headers response) "Set-Cookie" with
  | Some setCookie => Some (cookie_pair setCookie)
  | None => sent
  end.

(** The storage reads back from its own cookie the data it serialized. *)
Definition round_trips (storage : Remix.SessionStorage) (data : gmap string value) : Prop :=
  Remix.getSessionData storage (Some (cookie_pair (Remix.serialize storage data))) = data.

(** A storage that keeps the theme in clear, under the name and with the path
    of its options. *)
Definition plain_storage (options : Remix.CookieOptions) : Remix.SessionStorage :=
  {| Remix.getSessionData := fun cookieHeader =>
       match cookieHeader with
       | Some c =>
           match JSON.strip_prefix (Remix.name options ++ "=") c with
           | Some theme => {[ "theme" := VStr theme ]}
           | None => ∅
           end
       | None => ∅
       end;
     Remix.serialize := fun data =>
       (Remix.name options ++ "="
        ++ match data !! "theme" with
           | Some (VStr theme) => theme
           | _ => ""
           end
        ++ "; Path=" ++ Remix.path options ++ "; HttpOnly; SameSite=Lax")%string |}.

(** The reference parser with the storage in clear. *)
Definition reference_platform : Platform :=
  {| JSON_parse := JSON.parse;
     createCookieSessionStorage := plain_storage |}.

(** ** Properties *)

Lemma isTheme_true_iff (v : value) :
  isTheme v = true <-> v = VStr "dark" \/ v = VStr "light".
Proof.
  split.
  - destruct v as [| | b | f | s | items | props]; try discriminate.
    unfold isTheme; cbn.
    rewrite orb_false_r. intros H.
    apply orb_true_iff in H as [H | H]; apply String.eqb_eq in H; subst; auto.
  - intros [-> | ->]; reflexivity.
Qed.

(** C4: [isTheme] answers [true] on exactly the two strings ['dark'] and
    ['light'], and [false] on every other value, strings and non-strings
    alike. *)
Theorem isTheme_exactly_dark_light (v : value) :
  (isTheme v = true <-> (v = VStr "dark" \/ v = VStr "light")) /\
  (isTheme (VStr "dark") = true /\ isTheme (VStr "light") = true) /\
  ((v <> VStr "dark" /\ v <> VStr "light") -> isTheme v = false).
Proof.
  split; [apply isTheme_true_iff |].
  split; [split; reflexivity |].
  intros [Hd Hl].
  destruct (isTheme v) eqn:E; [| reflexivity].
  apply isTheme_true_iff in E as [E | E]; contradiction.
Qed.

(** *** The set-theme action *)

Lemma alter_last {A} (f : A -> A) (l : list A) (x : A) :
  alter f (length l) (l ++ [x]) = l ++ [f x].
Proof.
  induction l as [| y l IH]; cbn; [reflexivity |].
  f_equal. exact IH.
Qed.

Lemma lookup_last {A} (l : list A) (x : A) : (l ++ [x]) !! length l = Some x.
Proof.
  induction l as [| y l IH]; cbn; [reflexivity | exact IH].
Qed.

Section action_properties.

Variable pf : Platform.
Variable secrets : list string.

Lemma redirect_plain_headers (url : string) :
  Headers.get (Response.headers (Remix.redirect url [])) "Set-Cookie" = None /\
  Headers.get (Response.headers (Remix.redirect url [])) "Location" = Some url.
Proof. split; reflexivity. Qed.

Lemma redirect_cookie_headers (url cookie : string) :
  Headers.get (Response.headers (Remix.redirect url [("Set-Cookie", cookie)])) "Set-Cookie"
    = Some cookie /\
  Headers.get (Response.headers (Remix.redirect url [("Set-Cookie", cookie)])) "Location"
    = Some url.
Proof. split; reflexivity. Qed.

(** A body that cannot be read as JSON makes the action reject. *)
Lemma setThemeAction_unreadable (request : Request.t) (st : Remix.Sessions) (e : Error) :
  Request_json pf request st = (Throw e, st) ->
  setThemeAction pf secrets request st = (Throw e, st).
Proof.
  intros H. unfold setThemeAction, bind. rewrite H. reflexivity.
Qed.

(** A body whose [theme] can be read and fails the guard: a bare redirect. *)
Lemma setThemeAction_invalid_theme
    (request : Request.t) (st : Remix.Sessions) (data theme : value) :
  Request_json pf request st = (Return data, st) ->
  get_theme_prop data = Return theme ->
  isTheme theme = false ->
  setThemeAction pf secrets request st
    = (Return (Remix.redirect (URL.pathname (Request.url request)) []), st).
Proof.
  intros Hjson Hprop Hguard.
  unfold setThemeAction, bind. rewrite Hjson.
  destruct (truthy data) eqn:Htruthy.
  - unfold ret at 1. rewrite Htruthy. cbn.
    unfold lift. rewrite Hprop, Hguard. reflexivity.
  - unfold lift at 1. rewrite Hprop.
    assert (Hundef : theme = VUndefined).
    { destruct data as [| | b | f | s | items | props]; cbn in *;
        try discriminate; congruence. }
    subst theme. reflexivity.
Qed.

(** A body whose [theme] passes the guard: the theme is stored in a fresh
    session built from the request's cookie, and the session is committed. *)
Lemma setThemeAction_valid_theme
    (request : Request.t) (st : Remix.Sessions) (data theme : value) :
  Request_json pf request st = (Return data, st) ->
  get_theme_prop data = Return theme ->
  isTheme theme = true ->
  let before :=
    Remix.getSessionData (storage pf secrets)
      (Headers.get (Request.headers request) "Cookie") in
  let after : gmap string value := <["theme" := theme]> before in
  setThemeAction pf secrets request st
    = (Return (Remix.redirect (URL.pathname (Request.url request))
                 [("Set-Cookie", Remix.serialize (storage pf secrets) after)]),
       st ++ [after]).
Proof.
  intros Hjson Hprop Hguard before after.
  assert (Hobj : truthy data = true).
  { destruct data as [| | b | f | s | items | props]; cbn in *;
      try discriminate; try reflexivity;
      injection Hprop as <-; discriminate. }
  unfold setThemeAction, bind. rewrite Hjson, Hobj.
  unfold lift, ret. rewrite Hobj, Hprop, Hguard. cbn.
  rewrite alter_last, lookup_last. reflexivity.
Qed.

(** What [session.get] does: it returns a value and leaves the sessions as
    they were, unless it found the value under the flash key, which it then
    removes from that session. *)
Lemma session_get_outcome (session : Remix.Session) (name : string) (st : Remix.Sessions) :
  exists v st',
    Remix.session_get session name st = (Return v, st') /\
    (st' = st \/
     exists data,
       st !! session = Some data /\ data !! name = None /\
       st' = <[session := delete (Remix.flash name) data]> st).
Proof.
  unfold Remix.session_get.
  destruct (st !! session) as [data |] eqn:Hsession; [| eauto].
  destruct (data !! name) as [v |] eqn:Hname; [eauto |].
  destruct (data !! Remix.flash name) as [v |]; [| eauto].
  do 2 eexists. split; [reflexivity |]. right. eauto.
Qed.

(** What [getTheme] reads from a session, whatever the session holds. *)
Lemma getTheme_range (session : Remix.Session) (st : Remix.Sessions) :
  exists v st',
    getTheme (themeSessionOf pf secrets session) st = (Return v, st') /\
    (v = VStr "dark" \/ v = VStr "light" \/ v = VNull) /\
    (st' = st \/
     exists data,
       st !! session = Some data /\ data !! "theme" = None /\
       st' = <[session := delete "__flash_theme__" data]> st).
Proof.
  destruct (session_get_outcome session "theme" st) as (stored & st' & Hget & Hstore).
  cbn [getTheme themeSessionOf]. unfold bind, ret. rewrite Hget.
  destruct (isTheme stored) eqn:Hguard.
  - exists stored, st'. split; [reflexivity |]. split; [| exact Hstore].
    apply isTheme_true_iff in Hguard. tauto.
  - exists VNull, st'. split; [reflexivity |]. split; [tauto | exact Hstore].
Qed.

(** Reading the theme of the session a request's cookie decodes to, when the
    cookie holds one. *)
Lemma getTheme_of_request (request : Request.t) (st : Remix.Sessions) (v : value) :
  cookie_data pf secrets request !! "theme" = Some v ->
  (themeSession <- getThemeSession pf secrets request ;; getTheme themeSession) st
  = (Return (if isTheme v then v else VNull), st ++ [cookie_data pf secrets request]).
Proof.
  intros Hv. unfold getThemeSession, Remix.getSession, bind at 1 2, ret at 1.
  cbn [getTheme themeSessionOf]. unfold bind, ret, Remix.session_get.
  fold (cookie_data pf secrets request).
  rewrite lookup_last, Hv. reflexivity.
Qed.

(** [getThemeSession] looks at nothing of a request but its [Cookie]
    header. *)
Lemma getThemeSession_by_cookie (request next : Request.t) :
  Headers.get (Request.headers next) "Cookie"
    = Headers.get (Request.headers request) "Cookie" ->
  getThemeSession pf secrets next = getThemeSession pf secrets request.
Proof. intros H. unfold getThemeSession. rewrite H. reflexivity. Qed.

End action_properties.

(** C1, as the code has it: a body whose [theme] is read and fails the guard
    (the parsed value is not [null]) gives a bare redirect to the request's
    path, status 302, no [Set-Cookie], sessions untouched; an absent body and
    a body that is not JSON make the action reject with the parse error, no
    redirect, sessions untouched as well. *)
Theorem setThemeAction_bad_body
    (pf : Platform) (secrets : list string) (request : Request.t) (st : Remix.Sessions) :
  (Request.body request = None ->
   exists message,
     setThemeAction pf secrets request st = (Throw (SyntaxError message), st)) /\
  (forall text,
     Request.body request = Some text -> JSON_parse pf text = None ->
     exists message,
       setThemeAction pf secrets request st = (Throw (SyntaxError message), st)) /\
  (forall text data theme,
     Request.body request = Some text -> JSON_parse pf text = Some data ->
     get_theme_prop data = Return theme -> isTheme theme = false ->
     exists response,
       setThemeAction pf secrets request st = (Return response, st) /\
       Response.status response = 302%Z /\
       Headers.get (Response.headers response) "Location"
         = Some (URL.pathname (Request.url request)) /\
       Headers.get (Response.headers response) "Set-Cookie" = None).
Proof.
  split; [| split].
  - intros Hbody. eexists. apply setThemeAction_unreadable.
    unfold Request_json. rewrite Hbody. reflexivity.
  - intros text Hbody Hparse. eexists. apply setThemeAction_unreadable.
    unfold Request_json. rewrite Hbody, Hparse. reflexivity.
  - intros text data theme Hbody Hparse Hprop Hguard.
    eexists. split.
    + apply (setThemeAction_invalid_theme pf secrets request st data theme);
        [| assumption | assumption].
      unfold Request_json. rewrite Hbody, Hparse. reflexivity.
    + split; [reflexivity |].
      destruct (redirect_plain_headers (URL.pathname (Request.url request))) as [Hc Hl].
      split; assumption.
Qed.

Lemma setThemeAction_bad_body_witness :
  (exists message,
     setThemeAction example_platform [] request_without_body []
       = (Throw (SyntaxError message), [])) /\
  (exists message,
     setThemeAction example_platform [] request_not_json []
       = (Throw (SyntaxError message), [])) /\
  (exists response,
     setThemeAction example_platform [] request_blue [] = (Return response, []) /\
     Response.status response = 302%Z /\
     Headers.get (Response.headers response) "Location" = Some "/_actions/set-theme" /\
     Headers.get (Response.headers response) "Set-Cookie" = None).
Proof.
  split; [| split].
  - apply (setThemeAction_bad_body example_platform [] request_without_body []).
    reflexivity.
  - apply (setThemeAction_bad_body example_platform [] request_not_json [])
      with (text := "theme=dark"); reflexivity.
  - apply (setThemeAction_bad_body example_platform [] request_blue [])
      with (text := theme_body "blue") (data := VObj [("theme", VStr "blue")])
           (theme := VStr "blue"); reflexivity.
Defined.

(** C1 as stated fails: with no body the action makes no response at all, so
    it does not redirect. *)
Lemma setThemeAction_absent_body_no_redirect :
  Request.body request_without_body = None /\
  forall response,
    fst (setThemeAction example_platform [] request_without_body []) <> Return response.
Proof.
  split; [reflexivity |]. intros response. cbn. discriminate.
Qed.

(** The body [null] is JSON, and the guard [!(data || data.theme)] reads
    [null.theme]: the action rejects with a [TypeError]. *)
Lemma setThemeAction_null_body :
  setThemeAction example_platform [] request_null []
    = (Throw (TypeError "Cannot read properties of null (reading 'theme')"), []).
Proof. reflexivity. Qed.

(** C2: a body whose [theme] is a valid theme [t] makes the action answer
    with a [Set-Cookie]; where the storage reads its own cookie back, the
    session [getThemeSession] builds for the next request, which carries that
    cookie, gives [t] to [getTheme].  A body whose [theme] fails the guard
    gets an answer without [Set-Cookie] and leaves every session as it was:
    the next request carries the cookie of before, and [getTheme] reads from
    it what it read before. *)
Theorem setThemeAction_then_getTheme
    (pf : Platform) (secrets : list string) (request : Request.t) (st : Remix.Sessions)
    (text : string) (data : value) :
  Request.body request = Some text ->
  JSON_parse pf text = Some data ->
  (forall t : Theme,
     get_theme_prop data = Return (VStr (Theme_value t)) ->
     round_trips (storage pf secrets)
       (<["theme" := VStr (Theme_value t)]> (cookie_data pf secrets request)) ->
     exists response st',
       setThemeAction pf secrets request st = (Return response, st') /\
       forall next : Request.t,
         Headers.get (Request.headers next) "Cookie"
           = cookie_sent_next (Headers.get (Request.headers request) "Cookie") response ->
         exists st'',
           (themeSession <- getThemeSession pf secrets next ;; getTheme themeSession) st'
           = (Return (VStr (Theme_value t)), st'')) /\
  (forall theme,
     get_theme_prop data = Return theme -> isTheme theme = false ->
     exists response,
       setThemeAction pf secrets request st = (Return response, st) /\
       Headers.get (Response.headers response) "Set-Cookie" = None /\
       forall (next : Request.t) (st0 : Remix.Sessions),
         Headers.get (Request.headers next) "Cookie"
           = cookie_sent_next (Headers.get (Request.headers request) "Cookie") response ->
         (themeSession <- getThemeSession pf secrets next ;; getTheme themeSession) st0
         = (themeSession <- getThemeSession pf secrets request ;; getTheme themeSession) st0).
Proof.
  intros Hbody Hparse.
  assert (Hjson : Request_json pf request st = (Return data, st)).
  { unfold Request_json. rewrite Hbody, Hparse. reflexivity. }
  split.
  - intros t Hprop Hcodec.
    assert (Hguard : isTheme (VStr (Theme_value t)) = true) by (destruct t; reflexivity).
    pose proof (setThemeAction_valid_theme pf secrets request st data _ Hjson Hprop Hguard)
      as Hrun.
    cbv zeta in Hrun. fold (cookie_data pf secrets request) in Hrun.
    do 2 eexists. split; [exact Hrun |].
    intros next Hnext.
    unfold cookie_sent_next in Hnext.
    destruct (redirect_cookie_headers (URL.pathname (Request.url request))
                (Remix.serialize (storage pf secrets)
                   (<["theme" := VStr (Theme_value t)]> (cookie_data pf secrets request))))
      as [Hcookie _].
    rewrite Hcookie in Hnext.
    assert (Hdata : cookie_data pf secrets next
                    = <["theme" := VStr (Theme_value t)]> (cookie_data pf secrets request)).
    { unfold cookie_data at 1. rewrite Hnext. exact Hcodec. }
    eexists.
    rewrite (getTheme_of_request pf secrets next _ (VStr (Theme_value t))).
    + rewrite Hguard. reflexivity.
    + rewrite Hdata. apply lookup_insert_eq.
  - intros theme Hprop Hguard. eexists. split; [| split].
    + exact (setThemeAction_invalid_theme pf secrets request st data theme Hjson Hprop Hguard).
    + apply redirect_plain_headers.
    + intros next st0 Hnext.
      unfold cookie_sent_next in Hnext.
      destruct (redirect_plain_headers (URL.pathname (Request.url request))) as [Hnone _].
      rewrite Hnone in Hnext.
      rewrite (getThemeSession_by_cookie pf secrets request next Hnext). reflexivity.
Qed.

Lemma setThemeAction_then_getTheme_witness :
  (exists response st',
     setThemeAction reference_platform []
       (post [("cookie", "__theme=light")] (Some (theme_body "dark"))) []
       = (Return response, st') /\
     Headers.get (Response.headers response) "Set-Cookie"
       = Some "__theme=dark; Path=/; HttpOnly; SameSite=Lax" /\
     exists st'',
       (themeSession <- getThemeSession reference_platform []
                          (get_with [("cookie", "__theme=dark")]) ;;
        getTheme themeSession) st'
       = (Return (VStr "dark"), st'')) /\
  (exists response,
     setThemeAction reference_platform []
       (post [("cookie", "__theme=light")] (Some (theme_body "blue"))) []
       = (Return response, []) /\
     Headers.get (Response.headers response) "Set-Cookie" = None).
Proof.
  split.
  - destruct (setThemeAction_then_getTheme reference_platform []
                (post [("cookie", "__theme=light")] (Some (theme_body "dark"))) []
                (theme_body "dark") (VObj [("theme", VStr "dark")]) eq_refl eq_refl)
      as [Hvalid _].
    destruct (Hvalid DARK eq_refl eq_refl) as (response & st' & Hrun & Hnext).
    exists response, st'. split; [exact Hrun |].
    injection Hrun as <- <-. split; [reflexivity |].
    apply Hnext. reflexivity.
  - destruct (setThemeAction_then_getTheme reference_platform []
                (post [("cookie", "__theme=light")] (Some (theme_body "blue"))) []
                (theme_body "blue") (VObj [("theme", VStr "blue")]) eq_refl eq_refl)
      as [_ Hinvalid].
    destruct (Hinvalid (VStr "blue") eq_refl eq_refl) as (response & Hrun & Hnone & _).
    exists response. split; assumption.
Defined.

(** C3: [getTheme] returns ['dark'], ['light'] or [null] and nothing else,
    whatever the session holds, and whatever cookie the session was built
    from.  The read leaves the sessions as they were, except that a theme
    found under the flash key is removed from its session by the read. *)
Theorem getTheme_dark_light_or_null (pf : Platform) (secrets : list string) :
  (forall (session : Remix.Session) (st : Remix.Sessions),
     exists v st',
       getTheme (themeSessionOf pf secrets session) st = (Return v, st') /\
       (v = VStr "dark" \/ v = VStr "light" \/ v = VNull) /\
       (st' = st \/
        exists data,
          st !! session = Some data /\ data !! "theme" = None /\
          st' = <[session := delete "__flash_theme__" data]> st)) /\
  (forall (request : Request.t) (st : Remix.Sessions),
     exists v st',
       (themeSession <- getThemeSession pf secrets request ;; getTheme themeSession) st
         = (Return v, st') /\
       (v = VStr "dark" \/ v = VStr "light" \/ v = VNull)).
Proof.
  split.
  - apply getTheme_range.
  - intros request st.
    unfold getThemeSession, Remix.getSession, bind at 1 2, ret at 1.
    cbv beta iota.
    match goal with
    | |- context [getTheme (themeSessionOf pf secrets ?n) ?s] =>
        destruct (getTheme_range pf secrets n s) as (v & st' & Hv & Hrange & _)
    end.
    exists v, st'. split; [exact Hv | exact Hrange].
Qed.

(** *** The request helpers *)

(** C5, as the code has it: on the header [en-US,fr;q=0.8] [withLocale]
    returns [['en-US', 'fr']], only the segment [q=0.8] being dropped; with no
    [accepted-language] header it returns the default [['en-US']]. *)
Theorem withLocale_en_fr (request : Request.t) :
  (Headers.get (Request.headers request) "accepted-language" = Some "en-US,fr;q=0.8" ->
   withLocale request = ["en-US"; "fr"]) /\
  (Headers.get (Request.headers request) "accepted-language" = None ->
   withLocale request = ["en-US"]).
Proof.
  unfold withLocale. split; intros ->; reflexivity.
Qed.

Lemma withLocale_en_fr_witness :
  withLocale request_en_fr = ["en-US"; "fr"] /\ withLocale (get_with []) = ["en-US"].
Proof.
  split.
  - apply (withLocale_en_fr request_en_fr). reflexivity.
  - apply (withLocale_en_fr (get_with [])). reflexivity.
Defined.

(** C5 as stated fails: the locale [fr] is kept. *)
Lemma withLocale_en_fr_keeps_fr :
  Headers.get (Request.headers request_en_fr) "accepted-language" = Some "en-US,fr;q=0.8" /\
  withLocale request_en_fr = ["en-US"; "fr"] /\
  withLocale request_en_fr <> ["en-US"].
Proof.
  split; [reflexivity |]. split; [reflexivity | discriminate].
Qed.

(** C6: with [null] or the empty string, [mergeHeaders] returns the very
    reference it was given and leaves the heap, hence the container of any of
    the three shapes, as it was. *)
Theorem mergeHeaders_empty_value (heap : Heap) (headers : Ref) (value : option string) :
  value = None \/ value = Some "" ->
  mergeHeaders headers value heap = (Return headers, heap).
Proof.
  intros [-> | ->]; reflexivity.
Qed.

Lemma mergeHeaders_empty_value_witness :
  mergeHeaders 0 None example_heap = (Return 0, example_heap) /\
  mergeHeaders 1 (Some "") example_heap = (Return 1, example_heap) /\
  mergeHeaders 2 None example_heap = (Return 2, example_heap).
Proof.
  split; [| split].
  - apply (mergeHeaders_empty_value example_heap 0 None). left. reflexivity.
  - apply (mergeHeaders_empty_value example_heap 1 (Some "")). right. reflexivity.
  - apply (mergeHeaders_empty_value example_heap 2 None). left. reflexivity.
Defined.

Lemma inherits_iff (key : string) :
  existsb (String.eqb key) Object_prototype = true <-> In key Object_prototype.
Proof.
  rewrite existsb_exists. split.
  - intros (name & Hin & Heq). apply String.eqb_eq in Heq. subst name. exact Hin.
  - intros Hin. exists key. split; [exact Hin | apply String.eqb_refl].
Qed.

(** [getFromEnv] on a source, by what the source holds under the key. *)
Lemma getFromEnv_cases (process_env source : gmap string string) (key : string) :
  getFromEnv process_env key (Some source)
  = match source !! key with
    | Some v =>
        if String.eqb v "" then Throw (PlainError (key ++ " should be in environment"))
        else Return (Entry v)
    | None =>
        if existsb (String.eqb key) Object_prototype then Return (Inherited key)
        else Throw (PlainError (key ++ " should be in environment"))
    end.
Proof.
  unfold getFromEnv, get_property. cbn [default from_option id].
  destruct (source !! key) as [v |].
  - cbn [truthy_property]. destruct (String.eqb v ""); reflexivity.
  - destruct (existsb (String.eqb key) Object_prototype); reflexivity.
Qed.

(** C7, as the code has it: [getFromEnv(key, source)] throws, with the
    message naming the key, exactly when the read [source[key]] yields
    [undefined] or the empty string: the entry of [source] under [key] is
    empty, or there is none and [key] names no member that [source] inherits
    from [Object.prototype].  Otherwise it returns what the read yields: the
    stored string, or the inherited member.  [getFromEnv('X', {})] throws,
    [getFromEnv('X', {X: 'v'})] returns ['v']. *)
Theorem getFromEnv_throws_iff
    (process_env source : gmap string string) (key : string) :
  ((exists e, getFromEnv process_env key (Some source) = Throw e) <->
   (source !! key = Some "" \/
    (source !! key = None /\ ~ In key Object_prototype))) /\
  (source !! key = Some "" \/ (source !! key = None /\ ~ In key Object_prototype) ->
   getFromEnv process_env key (Some source)
     = Throw (PlainError (key ++ " should be in environment"))) /\
  (forall v, source !! key = Some v -> v <> "" ->
   getFromEnv process_env key (Some source) = Return (Entry v)) /\
  (source !! key = None -> In key Object_prototype ->
   getFromEnv process_env key (Some source) = Return (Inherited key)) /\
  (exists e, getFromEnv process_env "X" (Some ∅) = Throw e) /\
  getFromEnv process_env "X" (Some {[ "X" := "v" ]}) = Return (Entry "v").
Proof.
  rewrite (getFromEnv_cases process_env source key).
  pose proof (inherits_iff key) as Hin.
  destruct (source !! key) as [v |] eqn:Hv.
  - destruct (String.eqb v "") eqn:E.
    + apply String.eqb_eq in E. subst v.
      split; [split; [intros _; left; reflexivity | intros _; eexists; reflexivity] |].
      split; [reflexivity |].
      split; [intros v Hv' Hne; injection Hv' as <-; contradiction |].
      split; [discriminate |].
      split; [eexists |]; reflexivity.
    + apply String.eqb_neq in E.
      split; [split; [intros [e He]; discriminate
                     | intros [H | [H _]]; [injection H as ->; contradiction | discriminate]] |].
      split; [intros [H | [H _]]; [injection H as ->; contradiction | discriminate] |].
      split; [intros w Hw _; injection Hw as <-; reflexivity |].
      split; [discriminate |].
      split; [eexists |]; reflexivity.
  - destruct (existsb (String.eqb key) Object_prototype) eqn:E.
    + assert (Hkey : In key Object_prototype) by (apply Hin; reflexivity).
      split; [split; [intros [e He]; discriminate
                     | intros [H | [_ H]]; [discriminate | contradiction]] |].
      split; [intros [H | [_ H]]; [discriminate | contradiction] |].
      split; [discriminate |].
      split; [reflexivity |].
      split; [eexists |]; reflexivity.
    + assert (Hkey : ~ In key Object_prototype).
      { intros H. apply Hin in H. congruence. }
      split; [split; [intros _; right; auto | intros _; eexists; reflexivity] |].
      split; [reflexivity |].
      split; [discriminate |].
      split; [intros _ H; contradiction |].
      split; [eexists |]; reflexivity.
Qed.

(** C7 as stated fails: [toString] is no entry of the empty source, yet
    [getFromEnv('toString', {})] does not throw, it returns the inherited
    function. *)
Lemma getFromEnv_inherited_key :
  (∅ : gmap string string) !! "toString" = None /\
  getFromEnv ∅ "toString" (Some ∅) = Return (Inherited "toString") /\
  forall e, getFromEnv ∅ "toString" (Some ∅) <> Throw e.
Proof.
  split; [reflexivity |]. split; [reflexivity |]. intros e. discriminate.
Qed.






Lemma startsWith_q (str : string) :
  startsWith str "q" = true <-> exists rest, str = String "q" rest.
Proof.
  unfold startsWith. split.
  - destruct str as [| c rest]; cbn [String.prefix]; [discriminate |].
    destruct (ascii_dec "q" c) as [<- | Hne]; [| discriminate].
    intros _. exists rest. reflexivity.
  - intros [rest ->]. destruct rest; reflexivity.
Qed.

Lemma withLocale_present (request : Request.t) (h : string) :
  Headers.get (Request.headers request) "accepted-language" = Some h ->
  h <> "" ->
  withLocale request
    = List.filter (fun str => negb (startsWith str "q")) (split comma_or_semicolon h).
Proof.
  intros Hget Hne. unfold withLocale. rewrite Hget. cbn.
  destruct (String.eqb h "") eqn:E; [apply String.eqb_eq in E; contradiction |].
  reflexivity.
Qed.

(** C10, as the code has it: of a non-empty header [withLocale] keeps exactly
    the segments between [,] and [;] that do not start with the letter [q],
    in order, so a locale such as [qu] is dropped with the quality values, and
    it returns the empty list when every segment starts with [q]; the default
    [['en-US']] is returned when the header is absent or is the empty string,
    not when the filter leaves nothing. *)
Theorem withLocale_q_filter (request : Request.t) :
  (forall h,
     Headers.get (Request.headers request) "accepted-language" = Some h ->
     h <> "" ->
     withLocale request
       = List.filter (fun str => negb (startsWith str "q")) (split comma_or_semicolon h) /\
     (forall rest, ~ In (String "q" rest) (withLocale request)) /\
     (forall seg,
        In seg (split comma_or_semicolon h) ->
        (forall rest, seg <> String "q" rest) ->
        In seg (withLocale request)) /\
     ((forall seg, In seg (split comma_or_semicolon h) -> exists rest, seg = String "q" rest) ->
      withLocale request = [])) /\
  (Headers.get (Request.headers request) "accepted-language" = None \/
   Headers.get (Request.headers request) "accepted-language" = Some "" ->
   withLocale request = ["en-US"]).
Proof.
  split.
  - intros h Hget Hne.
    rewrite (withLocale_present request h Hget Hne).
    split; [reflexivity |]. split; [| split].
    + intros rest Hin. apply filter_In in Hin as [_ Hkeep].
      assert (Hq : startsWith (String "q" rest) "q" = true)
        by (apply startsWith_q; eexists; reflexivity).
      rewrite Hq in Hkeep. discriminate.
    + intros seg Hin Hnotq. apply filter_In. split; [exact Hin |].
      destruct (startsWith seg "q") eqn:Hq; [| reflexivity].
      apply startsWith_q in Hq as [rest ->]. exfalso. exact (Hnotq rest eq_refl).
    + intros Hall.
      induction (split comma_or_semicolon h) as [| seg segs IH]; [reflexivity |].
      cbn [List.filter].
      assert (Hq : startsWith seg "q" = true)
        by (apply startsWith_q, Hall; left; reflexivity).
      rewrite Hq. cbn [negb]. apply IH.
      intros seg' Hin. apply Hall. right. exact Hin.
  - unfold withLocale. intros [-> | ->]; reflexivity.
Qed.

Lemma withLocale_q_filter_witness :
  withLocale (get_with (Headers.push [] "accepted-language" "en,qu;q=0.5")) = ["en"] /\
  withLocale (get_with (Headers.push [] "accepted-language" "qu;q=0.5")) = [] /\
  withLocale request_empty_language = ["en-US"] /\
  withLocale (get_with []) = ["en-US"].
Proof.
  split; [| split; [| split]].
  - destruct (withLocale_q_filter
                (get_with (Headers.push [] "accepted-language" "en,qu;q=0.5")))
      as [Hpresent _].
    destruct (Hpresent "en,qu;q=0.5") as [Heq _]; [reflexivity | discriminate |].
    rewrite Heq. reflexivity.
  - destruct (withLocale_q_filter
                (get_with (Headers.push [] "accepted-language" "qu;q=0.5")))
      as [Hpresent _].
    destruct (Hpresent "qu;q=0.5") as (_ & _ & _ & Hall); [reflexivity | discriminate |].
    apply Hall. intros seg [<- | [<- | []]]; eexists; reflexivity.
  - apply (withLocale_q_filter request_empty_language). right. reflexivity.
  - apply (withLocale_q_filter (get_with [])). left. reflexivity.
Defined.

(** C10 as stated fails in its last part: a header that is present with the
    empty string as its value gets the default too, where the filter would
    have kept the one empty segment. *)
Lemma withLocale_default_on_empty_header :
  Headers.get (Request.headers request_empty_language) "accepted-language" = Some "" /\
  withLocale request_empty_language = ["en-US"] /\
  List.filter (fun str => negb (startsWith str "q")) (split comma_or_semicolon "") = [""].
Proof.
  split; [reflexivity |]. split; reflexivity.
Qed.

(** *** The server-side markup *)

(** C8: inside a provider [SSRTheme] always emits the [color-scheme] meta
    tag, with content ['light dark'] exactly when the current theme is light
    and ['dark light'] otherwise, and it emits the inline script if and only
    if [ssrTheme] is [null]; it emits nothing else. *)
Theorem SSRTheme_markup
    (Dispatch : Type) (theme : option Theme) (setTheme : Dispatch) (ssrTheme : option Theme) :
  exists (children : list Child) (content : string),
    SSRTheme Dispatch (Some (theme, setTheme)) ssrTheme = Return children /\
    In (meta "color-scheme" content true) (emitted children) /\
    (content = "light dark" <-> theme = Some LIGHT) /\
    (content = "dark light" <-> theme <> Some LIGHT) /\
    (In (script true ssrThemeScript) (emitted children) <-> ssrTheme = None) /\
    (forall e, In e (emitted children) ->
       e = meta "color-scheme" content true \/ e = script true ssrThemeScript).
Proof.
  eexists.
  exists (match theme with Some LIGHT => "light dark" | _ => "dark light" end).
  split; [reflexivity |].
  split; [destruct theme as [[|] |]; left; reflexivity |].
  split; [destruct theme as [[|] |]; split; intros H; try reflexivity; discriminate |].
  split; [destruct theme as [[|] |]; split; intros H; try reflexivity; try discriminate;
          exfalso; apply H; reflexivity |].
  split.
  - destruct ssrTheme as [[|] |]; cbn.
    + split; [| discriminate]. intros [H | []]. discriminate.
    + split; [| discriminate]. intros [H | []]. discriminate.
    + split; [reflexivity |]. intros _. right. left. reflexivity.
  - intros e He. destruct theme as [[|] |], ssrTheme as [[|] |]; cbn in He;
      intuition (subst; auto).
Qed.

(** Outside a provider [useTheme] throws, and so does [SSRTheme]. *)
Lemma SSRTheme_outside_provider (Dispatch : Type) (ssrTheme : option Theme) :
  SSRTheme Dispatch None ssrTheme
    = Throw (PlainError "useTheme should be used inside ThemeProvider").
Proof. reflexivity. Qed.

(** *** The theme session as a codec *)

Lemma alter_middle {A} (f : A -> A) (l r : list A) (x : A) :
  alter f (length l) (l ++ x :: r) = l ++ f x :: r.
Proof.
  induction l as [| y l IH]; cbn; [reflexivity |].
  f_equal. exact IH.
Qed.

Lemma lookup_after {A} (l r : list A) (i : nat) :
  (l ++ r) !! (length l + i) = r !! i.
Proof.
  induction l as [| y l IH]; cbn; [reflexivity | exact IH].
Qed.

Lemma session_get_present
    (session : Remix.Session) (name : string) (st : Remix.Sessions)
    (data : gmap string value) (v : value) :
  st !! session = Some data -> data !! name = Some v ->
  Remix.session_get session name st = (Return v, st).
Proof.
  intros Hsession Hname. unfold Remix.session_get. rewrite Hsession, Hname. reflexivity.
Qed.

(** [session.get('theme')] on a session, by its data. *)
Lemma session_get_theme
    (session : Remix.Session) (st : Remix.Sessions) (data : gmap string value) :
  st !! session = Some data ->
  Remix.session_get session "theme" st
  = (Return (stored_theme data), <[session := after_read data]> st).
Proof.
  intros Hsession. unfold Remix.session_get, stored_theme, after_read.
  rewrite Hsession. change (Remix.flash "theme") with "__flash_theme__".
  destruct (data !! "theme") as [v |].
  - rewrite (list_insert_id _ _ _ Hsession). reflexivity.
  - destruct (data !! "__flash_theme__") as [v |] eqn:Hflash; [reflexivity |].
    rewrite (delete_id _ _ Hflash), (list_insert_id _ _ _ Hsession). reflexivity.
Qed.

Section codec_properties.

Variable pf : Platform.
Variable secrets : list string.

(** X1: what [setTheme] stores is what [getTheme] reads back, filtered by
    the guard: a valid theme comes back as it is, anything else as [null].
    The session keeps every other key its cookie held. *)
Theorem setTheme_getTheme (request : Request.t) (st : Remix.Sessions) (v : value) :
  (themeSession <- getThemeSession pf secrets request ;;
   _ <- setTheme themeSession v ;;
   getTheme themeSession) st
  = (Return (if isTheme v then v else VNull),
     st ++ [<["theme" := v]> (cookie_data pf secrets request)]).
Proof.
  unfold cookie_data, getThemeSession, Remix.getSession, bind at 1 2 3, ret at 1.
  cbn [getTheme setTheme themeSessionOf]. unfold Remix.session_set, bind, ret.
  rewrite alter_last.
  rewrite (session_get_present _ _ _ _ v (lookup_last _ _) (lookup_insert_eq _ _ _)).
  reflexivity.
Qed.

(** X2: of two [setTheme] calls on one session the second wins, in what
    [getTheme] reads and in the cookie [commit] serializes. *)
Theorem setTheme_last_wins (request : Request.t) (st : Remix.Sessions) (a b : value) :
  (themeSession <- getThemeSession pf secrets request ;;
   _ <- setTheme themeSession a ;;
   _ <- setTheme themeSession b ;;
   cookie <- commit themeSession ;;
   theme <- getTheme themeSession ;;
   ret (cookie, theme)) st
  = (Return (Remix.serialize (storage pf secrets)
               (<["theme" := b]> (cookie_data pf secrets request)),
             if isTheme b then b else VNull),
     st ++ [<["theme" := b]> (cookie_data pf secrets request)]).
Proof.
  unfold cookie_data, getThemeSession, Remix.getSession, bind at 1 2 3 4 5, ret at 1.
  cbn [getTheme setTheme commit themeSessionOf].
  unfold Remix.session_set, Remix.commitSession, bind, ret.
  rewrite !alter_last, insert_insert_eq, lookup_last.
  rewrite (session_get_present _ _ _ _ b (lookup_last _ _) (lookup_insert_eq _ _ _)).
  reflexivity.
Qed.

(** X3: two theme sessions, even of the same request, are two objects:
    [setTheme] on the first changes neither what [getTheme] of the second
    reads, which is the guarded theme of its own cookie (the flashed one when
    the cookie holds no other), nor the data of the second. *)
Theorem setTheme_other_session
    (request1 request2 : Request.t) (st : Remix.Sessions) (v : value) :
  (first <- getThemeSession pf secrets request1 ;;
   second <- getThemeSession pf secrets request2 ;;
   _ <- setTheme first v ;;
   getTheme second) st
  = (Return (let stored := stored_theme (cookie_data pf secrets request2) in
             if isTheme stored then stored else VNull),
     st ++ [<["theme" := v]> (cookie_data pf secrets request1);
            after_read (cookie_data pf secrets request2)]).
Proof.
  unfold cookie_data, getThemeSession, Remix.getSession, bind at 1 2 3 4 5, ret at 1 2.
  cbn [getTheme setTheme themeSessionOf]. unfold Remix.session_set, bind, ret.
  rewrite <- app_assoc. cbn [app].
  rewrite alter_middle.
  rewrite length_app. cbn [length].
  match goal with
  | |- context [Remix.session_get _ _ (st ++ [?d1; ?d2])] =>
      rewrite (session_get_theme (length st + 1) (st ++ [d1; d2]) d2
                 (lookup_after st [d1; d2] 1));
      rewrite (insert_app_r st [d1; d2] 1)
  end.
  reflexivity.
Qed.

End codec_properties.

(** *** The set-theme action on every request *)

Section action_cases.

Variable pf : Platform.
Variable secrets : list string.

Lemma Request_json_outcome (request : Request.t) (st : Remix.Sessions) :
  (exists message, Request_json pf request st = (Throw (SyntaxError message), st) /\
     (Request.body request = None \/
      exists text, Request.body request = Some text /\ JSON_parse pf text = None)) \/
  (exists text data, Request_json pf request st = (Return data, st) /\
     Request.body request = Some text /\ JSON_parse pf text = Some data).
Proof.
  unfold Request_json.
  destruct (Request.body request) as [text |] eqn:Hbody.
  - destruct (JSON_parse pf text) as [data |] eqn:Hparse.
    + right. exists text, data. auto.
    + left. eexists. split; [reflexivity |]. right. exists text. auto.
  - left. eexists. split; [reflexivity |]. left. reflexivity.
Qed.

Lemma get_theme_prop_Throw (data : value) (e : Error) :
  get_theme_prop data = Throw e ->
  (data = VNull \/ data = VUndefined) /\ exists message, e = TypeError message.
Proof.
  destruct data; cbn; intros H; try discriminate; injection H as <-; eauto.
Qed.

(** The guard [!(data || data.theme)] reads [theme] off a falsy [data]: on
    [null] and [undefined] that read throws. *)
Lemma setThemeAction_no_object
    (request : Request.t) (st : Remix.Sessions) (data : value) (e : Error) :
  Request_json pf request st = (Return data, st) ->
  get_theme_prop data = Throw e ->
  setThemeAction pf secrets request st = (Throw e, st).
Proof.
  intros Hjson Hprop.
  unfold setThemeAction, bind. rewrite Hjson.
  destruct data; try discriminate Hprop;
    cbn in Hprop; injection Hprop as <-; reflexivity.
Qed.

Lemma setThemeAction_outcome (request : Request.t) (st : Remix.Sessions) :
  outcome pf secrets request st (setThemeAction pf secrets request st).
Proof.
  destruct (Request_json_outcome request st)
    as [(message & Hjson & Hwhy) | (text & data & Hjson & Hbody & Hparse)].
  - rewrite (setThemeAction_unreadable pf secrets request st _ Hjson).
    apply unreadable. exact Hwhy.
  - destruct (get_theme_prop data) as [theme | e] eqn:Hprop.
    + destruct (isTheme theme) eqn:Hguard.
      * rewrite (setThemeAction_valid_theme pf secrets request st data theme
                   Hjson Hprop Hguard).
        exact (stored pf secrets request st text data theme Hbody Hparse Hprop Hguard).
      * rewrite (setThemeAction_invalid_theme pf secrets request st data theme
                   Hjson Hprop Hguard).
        exact (rejected pf secrets request st text data theme Hbody Hparse Hprop Hguard).
    + rewrite (setThemeAction_no_object request st data e Hjson Hprop).
      destruct (get_theme_prop_Throw data e Hprop) as [Hdata [message ->]].
      exact (no_object pf secrets request st text data message Hbody Hparse Hdata).
Qed.

End action_cases.

(** X4: whenever the action answers, the answer is a 302 redirect whose
    [Location] is the path of the request's own URL, query string and
    fragment left out. *)
Theorem setThemeAction_always_redirects
    (pf : Platform) (secrets : list string) (request : Request.t)
    (st st' : Remix.Sessions) (response : Response.t) :
  setThemeAction pf secrets request st = (Return response, st') ->
  Response.status response = 302%Z /\
  Headers.get (Response.headers response) "Location"
    = Some (URL.pathname (Request.url request)).
Proof.
  intros Hrun.
  pose proof (setThemeAction_outcome pf secrets request st) as Hcase.
  rewrite Hrun in Hcase.
  inversion Hcase; subst; (split; [reflexivity |]).
  - apply redirect_plain_headers.
  - apply redirect_cookie_headers.
Qed.

Lemma setThemeAction_always_redirects_witness :
  exists response st',
    setThemeAction example_platform [] request_dark [] = (Return response, st') /\
    Response.status response = 302%Z /\
    Headers.get (Response.headers response) "Location" = Some "/_actions/set-theme".
Proof.
  do 2 eexists. split; [reflexivity |].
  exact (setThemeAction_always_redirects example_platform [] request_dark [] _ _ eq_refl).
Defined.

(** X5: the action attaches a [Set-Cookie] header exactly when the body is
    JSON whose [theme] passes the guard; every other answer carries none. *)
Theorem setThemeAction_cookie_iff
    (pf : Platform) (secrets : list string) (request : Request.t) (st : Remix.Sessions) :
  (exists response st',
     setThemeAction pf secrets request st = (Return response, st') /\
     Headers.get (Response.headers response) "Set-Cookie" <> None) <->
  (exists text data theme,
     Request.body request = Some text /\ JSON_parse pf text = Some data /\
     get_theme_prop data = Return theme /\ isTheme theme = true).
Proof.
  pose proof (setThemeAction_outcome pf secrets request st) as Hcase.
  split.
  - intros (response & st' & Hrun & Hcookie).
    rewrite Hrun in Hcase. inversion Hcase; subst.
    + exfalso. apply Hcookie. apply redirect_plain_headers.
    + eauto 8.
  - intros (text & data & theme & Hbody & Hparse & Hprop & Hguard).
    assert (Hjson : Request_json pf request st = (Return data, st)).
    { unfold Request_json. rewrite Hbody, Hparse. reflexivity. }
    rewrite (setThemeAction_valid_theme pf secrets request st data theme Hjson Hprop Hguard).
    do 2 eexists. split; [reflexivity |].
    destruct (redirect_cookie_headers (URL.pathname (Request.url request))
                (Remix.serialize (storage pf secrets)
                   (<["theme" := theme]>
                      (Remix.getSessionData (storage pf secrets)
                         (Headers.get (Request.headers request) "Cookie")))))
      as [Hcookie _].
    rewrite Hcookie. discriminate.
Qed.

(** X6: the action ends in a [TypeError] exactly when the body parses to
    [null] (or to [undefined], which [JSON.parse] never yields): the guard
    [!(data || data.theme)] then reads a property of it.  No session is
    opened or changed on the way, and no other ending of the action is a
    [TypeError]. *)
Theorem setThemeAction_TypeError_iff
    (pf : Platform) (secrets : list string) (request : Request.t) (st : Remix.Sessions) :
  ((exists message,
      setThemeAction pf secrets request st = (Throw (TypeError message), st)) <->
   (exists text,
      Request.body request = Some text /\
      (JSON_parse pf text = Some VNull \/ JSON_parse pf text = Some VUndefined))) /\
  (forall message st',
     setThemeAction pf secrets request st = (Throw (TypeError message), st') -> st' = st).
Proof.
  pose proof (setThemeAction_outcome pf secrets request st) as Hcase.
  split; [| intros message st' Hrun; rewrite Hrun in Hcase;
            inversion Hcase; subst; reflexivity].
  split.
  - intros (message & Hrun).
    rewrite Hrun in Hcase. inversion Hcase; subst.
    exists text. split; [assumption |].
    match goal with H : _ = VNull \/ _ = VUndefined |- _ => destruct H; subst; auto end.
  - intros (text & Hbody & Hparse).
    assert (exists data e, JSON_parse pf text = Some data /\
              get_theme_prop data = Throw (TypeError e)) as (data & e & Hdata & Hprop).
    { destruct Hparse as [H | H]; do 2 eexists; (split; [exact H | reflexivity]). }
    assert (Hjson : Request_json pf request st = (Return data, st)).
    { unfold Request_json. rewrite Hbody, Hdata. reflexivity. }
    rewrite (setThemeAction_no_object pf secrets request st data _ Hjson Hprop).
    eauto.
Qed.

(** X7: the action never touches a session that existed before it ran; it
    opens at most one new session, and only to store a valid theme. *)
Theorem setThemeAction_keeps_sessions
    (pf : Platform) (secrets : list string) (request : Request.t) (st : Remix.Sessions) :
  exists opened : Remix.Sessions,
    snd (setThemeAction pf secrets request st) = st ++ opened /\
    (length opened <= 1)%nat /\
    (forall session data,
       st !! session = Some data ->
       snd (setThemeAction pf secrets request st) !! session = Some data) /\
    (opened <> [] ->
     exists response,
       fst (setThemeAction pf secrets request st) = Return response /\
       Headers.get (Response.headers response) "Set-Cookie" <> None).
Proof.
  pose proof (setThemeAction_outcome pf secrets request st) as Hcase.
  inversion Hcase as [message Hwhy Heq | text data message Hbody Hparse Hdata Heq
                     | text data theme Hbody Hparse Hprop Hguard Heq
                     | text data theme Hbody Hparse Hprop Hguard Heq].
  1-3: exists []; cbn [snd fst]; rewrite app_nil_r;
       (split; [reflexivity |]); (split; [cbn; lia |]);
       (split; [auto | intros H; contradiction]).
  eexists. cbn [snd fst]. split; [reflexivity |]. split; [cbn; lia |]. split.
  - intros session data' Hlookup. apply lookup_app_l_Some. exact Hlookup.
  - intros _. eexists. split; [reflexivity |].
    match goal with
    | |- Headers.get (Response.headers (Remix.redirect ?u [("Set-Cookie", ?c)])) _ <> _ =>
        destruct (redirect_cookie_headers u c) as [Hcookie _]; rewrite Hcookie
    end.
    discriminate.
Qed.

(** *** From the provider to the action *)

(** What the reference parser makes of the bodies the provider posts. *)
Lemma parse_posted_body (theme : option Theme) :
  JSON.parse (FetchCall.body (persistTheme theme))
  = Some (VObj [("theme", Theme_or_null theme)]).
Proof. destruct theme as [[|] |]; reflexivity. Qed.

(** X8: the body the provider posts for a theme [t] is JSON that the action
    accepts: on a platform that parses this body as the reference parser
    does, the action stores [t] over the cookie's data and commits it. *)
Theorem provider_post_is_stored
    (pf : Platform) (secrets : list string) (request : Request.t)
    (st : Remix.Sessions) (t : Theme) :
  Request.body request = Some (FetchCall.body (persistTheme (Some t))) ->
  JSON_parse pf (FetchCall.body (persistTheme (Some t)))
    = JSON.parse (FetchCall.body (persistTheme (Some t))) ->
  setThemeAction pf secrets request st
  = (Return (Remix.redirect (URL.pathname (Request.url request))
               [("Set-Cookie",
                 Remix.serialize (storage pf secrets)
                   (<["theme" := VStr (Theme_value t)]> (cookie_data pf secrets request)))]),
     st ++ [<["theme" := VStr (Theme_value t)]> (cookie_data pf secrets request)]).
Proof.
  intros Hbody Hparse. rewrite parse_posted_body in Hparse.
  apply (setThemeAction_valid_theme pf secrets request st
           (VObj [("theme", VStr (Theme_value t))]) (VStr (Theme_value t))).
  - unfold Request_json. rewrite Hbody, Hparse. reflexivity.
  - reflexivity.
  - destruct t; reflexivity.
Qed.

Lemma provider_post_is_stored_witness :
  setThemeAction reference_platform []
    (post [("cookie", "__theme=dark")] (Some (FetchCall.body (persistTheme (Some LIGHT))))) []
  = (Return (Remix.redirect "/_actions/set-theme"
               [("Set-Cookie", "__theme=light; Path=/; HttpOnly; SameSite=Lax")]),
     [<["theme" := VStr "light"]> {[ "theme" := VStr "dark" ]}]).
Proof.
  exact (provider_post_is_stored reference_platform []
           (post [("cookie", "__theme=dark")]
              (Some (FetchCall.body (persistTheme (Some LIGHT)))))
           [] LIGHT eq_refl eq_refl).
Defined.

(** X9: the body the provider posts when its theme has become [null] is
    JSON whose [theme] the guard turns down: on a platform that parses this
    body as the reference parser does, the action redirects without
    [Set-Cookie] and opens no session, so the cookie keeps the theme it
    had. *)
Theorem provider_null_is_not_stored
    (pf : Platform) (secrets : list string) (request : Request.t) (st : Remix.Sessions) :
  Request.body request = Some (FetchCall.body (persistTheme None)) ->
  JSON_parse pf (FetchCall.body (persistTheme None))
    = JSON.parse (FetchCall.body (persistTheme None)) ->
  setThemeAction pf secrets request st
  = (Return (Remix.redirect (URL.pathname (Request.url request)) []), st).
Proof.
  intros Hbody Hparse. rewrite parse_posted_body in Hparse.
  apply (setThemeAction_invalid_theme pf secrets request st
           (VObj [("theme", VNull)]) VNull).
  - unfold Request_json. rewrite Hbody, Hparse. reflexivity.
  - reflexivity.
  - reflexivity.
Qed.

Lemma provider_null_is_not_stored_witness :
  setThemeAction reference_platform []
    (post [("cookie", "__theme=dark")] (Some (FetchCall.body (persistTheme None)))) []
  = (Return (Remix.redirect "/_actions/set-theme" []), []).
Proof.
  exact (provider_null_is_not_stored reference_platform []
           (post [("cookie", "__theme=dark")] (Some (FetchCall.body (persistTheme None))))
           [] eq_refl eq_refl).
Defined.

(** *** The provider *)

Lemma includes_themes (v : value) : includes themes v = isTheme v.
Proof. destruct v; reflexivity. Qed.

(** X10: the provider's initial state is ['dark'], ['light'] or [null]
    whatever value the [ssrTheme] prop has at run time, and wherever it
    renders. *)
Theorem ThemeProvider_initialState_valid (ssrTheme : value) (window : option bool) :
  exists theme : option Theme,
    ThemeProvider_initialState ssrTheme window = Theme_or_null theme.
Proof.
  unfold ThemeProvider_initialState.
  destruct (truthy ssrTheme).
  - rewrite includes_themes. destruct (isTheme ssrTheme) eqn:Hguard.
    + apply isTheme_true_iff in Hguard as [-> | ->];
        [exists (Some DARK) | exists (Some LIGHT)]; reflexivity.
    + exists None. reflexivity.
  - destruct window as [[|] |];
      [exists (Some DARK) | exists (Some LIGHT) | exists None]; reflexivity.
Qed.

(** X11: the order of the sources of the initial state.  A valid server
    theme is taken as it is, whatever the system prefers; a truthy [ssrTheme]
    that is no theme gives [null], also in a browser, the system preference
    is not consulted; only a falsy [ssrTheme] falls through, to [null] where
    there is no [window] and to the system preference where there is one. *)
Theorem ThemeProvider_initialState_order (ssrTheme : value) (window : option bool) :
  (isTheme ssrTheme = true ->
   ThemeProvider_initialState ssrTheme window = ssrTheme) /\
  (truthy ssrTheme = true -> isTheme ssrTheme = false ->
   ThemeProvider_initialState ssrTheme window = VNull) /\
  (truthy ssrTheme = false ->
   ThemeProvider_initialState ssrTheme window
   = match window with
     | None => VNull
     | Some matches => VStr (if matches then "dark" else "light")
     end).
Proof.
  unfold ThemeProvider_initialState. rewrite includes_themes.
  split; [| split].
  - intros Hguard. rewrite Hguard.
    apply isTheme_true_iff in Hguard as [-> | ->]; reflexivity.
  - intros -> ->. reflexivity.
  - intros ->. destruct window as [[|] |]; reflexivity.
Qed.

Lemma ThemeProvider_initialState_order_witness :
  ThemeProvider_initialState (VStr "light") (Some true) = VStr "light" /\
  ThemeProvider_initialState (VStr "blue") (Some true) = VNull /\
  ThemeProvider_initialState VNull (Some true) = VStr "dark" /\
  ThemeProvider_initialState VNull None = VNull.
Proof.
  split; [| split; [| split]].
  - apply (ThemeProvider_initialState_order (VStr "light") (Some true)). reflexivity.
  - apply (ThemeProvider_initialState_order (VStr "blue") (Some true)); reflexivity.
  - apply (ThemeProvider_initialState_order VNull (Some true)). reflexivity.
  - apply (ThemeProvider_initialState_order VNull None). reflexivity.
Defined.

Lemma run_snoc (initial : option Theme) (batches : list (list Event)) (batch : list Event) :
  run initial (batches ++ [batch]) = rerender (run initial batches) batch.
Proof. unfold run. apply fold_left_app. Qed.

Lemma rerender_changed (p : Provider.t) (batch : list Event) :
  Provider.mounted p = true ->
  after_batch (Provider.theme p) batch <> Provider.theme p ->
  rerender p batch
  = {| Provider.theme := after_batch (Provider.theme p) batch;
       Provider.mounted := true;
       Provider.sent :=
         Provider.sent p ++ [persistTheme (after_batch (Provider.theme p) batch)] |}.
Proof.
  intros Hm Hne. unfold rerender. case_decide; [contradiction |].
  unfold themeEffect. rewrite Hm. reflexivity.
Qed.

Lemma rerender_unchanged (p : Provider.t) (batch : list Event) :
  after_batch (Provider.theme p) batch = Provider.theme p -> rerender p batch = p.
Proof.
  intros Heq. unfold rerender. case_decide; [reflexivity | contradiction].
Qed.

Lemma default_last_cons {A} (d x : A) (l : list A) :
  default d (last (x :: l)) = default x (last l).
Proof.
  revert d x. induction l as [| y l IH]; intros d x; [reflexivity |].
  change (last (x :: y :: l)) with (last (y :: l)).
  rewrite (IH d y), (IH x y). reflexivity.
Qed.

(** The commits of a mounted provider, against the themes they commit. *)
Lemma rerender_trace (batches : list (list Event)) (p : Provider.t) :
  Provider.mounted p = true ->
  Provider.mounted (fold_left rerender batches p) = true /\
  Provider.theme (fold_left rerender batches p)
    = default (Provider.theme p) (last (committed (Provider.theme p) batches)) /\
  Provider.sent (fold_left rerender batches p)
    = Provider.sent p
      ++ List.map persistTheme
           (changes (Provider.theme p) (committed (Provider.theme p) batches)).
Proof.
  revert p. induction batches as [| batch batches IH]; intros p Hm.
  - cbn. rewrite app_nil_r. auto.
  - cbn [fold_left committed changes].
    rewrite default_last_cons.
    destruct (decide (after_batch (Provider.theme p) batch = Provider.theme p))
      as [Hsame | Hnew].
    + rewrite (rerender_unchanged p batch Hsame), Hsame.
      exact (IH p Hm).
    + rewrite (rerender_changed p batch Hm Hnew).
      match goal with
      | |- context [fold_left rerender batches ?q] =>
          destruct (IH q eq_refl) as (Hm' & Htheme & Hsent)
      end.
      cbn [Provider.theme Provider.sent] in Htheme, Hsent.
      split; [exact Hm' |]. split; [exact Htheme |].
      rewrite Hsent, <- app_assoc. reflexivity.
Qed.

Lemma run_mounted (initial : option Theme) (batches : list (list Event)) :
  Provider.mounted (run initial batches) = true.
Proof. apply (rerender_trace batches (mount initial)). reflexivity. Qed.

(** X12: mounting sends nothing.  After that a commit whose updates, applied
    in order, end on the theme of the commit before sends nothing and changes
    nothing, and a commit that ends on another theme sends exactly one
    request, carrying that theme. *)
Theorem rerender_sends_once
    (initial : option Theme) (batches : list (list Event)) (batch : list Event) :
  Provider.sent (mount initial) = [] /\
  (after_batch (Provider.theme (run initial batches)) batch
     = Provider.theme (run initial batches) ->
   run initial (batches ++ [batch]) = run initial batches) /\
  (after_batch (Provider.theme (run initial batches)) batch
     <> Provider.theme (run initial batches) ->
   Provider.theme (run initial (batches ++ [batch]))
     = after_batch (Provider.theme (run initial batches)) batch /\
   Provider.sent (run initial (batches ++ [batch]))
     = Provider.sent (run initial batches)
       ++ [persistTheme (after_batch (Provider.theme (run initial batches)) batch)]).
Proof.
  split; [reflexivity |].
  rewrite run_snoc. split.
  - apply rerender_unchanged.
  - intros Hne.
    rewrite (rerender_changed _ batch (run_mounted initial batches) Hne).
    split; reflexivity.
Qed.

Lemma rerender_sends_once_witness :
  run (Some LIGHT)
      [[MediaChange true]; [SetTheme (fun _ => Some LIGHT); SetTheme (fun _ => Some DARK)]]
    = run (Some LIGHT) [[MediaChange true]] /\
  Provider.sent (run (Some LIGHT) [[MediaChange true]; [SetTheme (fun _ => Some LIGHT)]])
    = [persistTheme (Some DARK); persistTheme (Some LIGHT)].
Proof.
  split.
  - apply (rerender_sends_once (Some LIGHT) [[MediaChange true]]
             [SetTheme (fun _ => Some LIGHT); SetTheme (fun _ => Some DARK)]).
    reflexivity.
  - apply (rerender_sends_once (Some LIGHT) [[MediaChange true]]
             [SetTheme (fun _ => Some LIGHT)]).
    discriminate.
Defined.

(** X13: however the setter calls and media changes are grouped into
    commits, the requests a provider has sent are, in order, the themes it
    committed that differ from the theme committed before them (from the
    initial theme for the first); and the theme it shows is the last one
    committed. *)
Theorem run_trace (initial : option Theme) (batches : list (list Event)) :
  Provider.sent (run initial batches)
    = List.map persistTheme (changes initial (committed initial batches)) /\
  Provider.theme (run initial batches)
    = default initial (last (committed initial batches)).
Proof.
  destruct (rerender_trace batches (mount initial) eq_refl) as (_ & Htheme & Hsent).
  split; [exact Hsent | exact Htheme].
Qed.

(** *** The inline script *)

(** X14: the script and the client's first render agree.  Where the server
    knew no theme, the provider starts in the browser from the system
    preference; the content the script writes into the [color-scheme] meta
    tag is the content [SSRTheme] renders for that state, and the class the
    script puts on the root element is that theme. *)
Theorem ssrThemeScript_agrees_with_render
    (Dispatch : Type) (setTheme : Dispatch) (matches : bool)
    (document : Document) (old : string) (theme : option Theme) :
  colorScheme document = Some old ->
  ThemeProvider_initialState VNull (Some matches) = Theme_or_null theme ->
  exists content children,
    colorScheme (run_ssrThemeScript matches document) = Some content /\
    SSRTheme Dispatch (Some (theme, setTheme)) None = Return children /\
    In (meta "color-scheme" content true) (emitted children) /\
    In (match theme with Some t => Theme_value t | None => "" end)
       (classList (run_ssrThemeScript matches document)).
Proof.
  intros Hmeta Hinit. unfold run_ssrThemeScript. rewrite Hmeta.
  assert (Hclass : forall token, In token (classList_add (classList document) token)).
  { intros token. unfold classList_add.
    destruct (existsb (String.eqb token) (classList document)) eqn:E.
    - apply existsb_exists in E as (x & Hx & Heq).
      apply String.eqb_eq in Heq. subst x. exact Hx.
    - apply in_or_app. right. left. reflexivity. }
  destruct matches, theme as [[|] |]; try discriminate Hinit;
    do 2 eexists; cbn [colorScheme classList];
    (split; [reflexivity |]); (split; [reflexivity |]);
    (split; [left; reflexivity | apply Hclass]).
Qed.

Lemma ssrThemeScript_agrees_with_render_witness :
  exists content children,
    colorScheme (run_ssrThemeScript false
                   {| classList := ["app"]; colorScheme := Some "dark light" |})
      = Some content /\
    SSRTheme unit (Some (Some LIGHT, tt)) None = Return children /\
    In (meta "color-scheme" content true) (emitted children) /\
    In "light" (classList (run_ssrThemeScript false
                             {| classList := ["app"]; colorScheme := Some "dark light" |})).
Proof.
  exact (ssrThemeScript_agrees_with_render unit tt false
           {| classList := ["app"]; colorScheme := Some "dark light" |}
           "dark light" (Some LIGHT) eq_refl eq_refl).
Defined.

Lemma classList_add_idempotent (classes : list string) (token : string) :
  classList_add (classList_add classes token) token = classList_add classes token.
Proof.
  unfold classList_add.
  destruct (existsb (String.eqb token) classes) eqn:E.
  - rewrite E. reflexivity.
  - rewrite existsb_app. cbn.
    rewrite String.eqb_refl, orb_true_r. reflexivity.
Qed.

(** X15: the script only ever adds: the classes of the root element stay, in
    order, with at most one class appended; a document without the meta tag
    gets none; and running the script again changes nothing. *)
Theorem ssrThemeScript_only_adds (matches : bool) (document : Document) :
  (exists added,
     classList (run_ssrThemeScript matches document) = classList document ++ added /\
     (length added <= 1)%nat) /\
  (colorScheme document = None ->
   colorScheme (run_ssrThemeScript matches document) = None) /\
  run_ssrThemeScript matches (run_ssrThemeScript matches document)
    = run_ssrThemeScript matches document.
Proof.
  split; [| split].
  - unfold run_ssrThemeScript, classList_add.
    destruct (colorScheme document), (existsb _ (classList document));
      cbn [classList];
      first [ exists []; rewrite app_nil_r; split; [reflexivity | cbn; lia]
            | eexists; split; [reflexivity | cbn; lia] ].
  - intros Hnone. unfold run_ssrThemeScript. rewrite Hnone. reflexivity.
  - unfold run_ssrThemeScript.
    destruct (colorScheme document); cbn [classList colorScheme];
      rewrite classList_add_idempotent; reflexivity.
Qed.

(** *** More on the request helpers *)



(** X17: with the source left out the read goes to [process.env], with a
    source given [process.env] is not consulted.  Either way [getFromEnv]
    returns a string [v] exactly when the mapping read holds [v] under the
    key and [v] is not empty, so a string it returns is never empty; and it
    returns an inherited member exactly when the mapping has no entry under
    the key and the key names a member of [Object.prototype]. *)
Theorem getFromEnv_default_source
    (process_env source : gmap string string) (key v : string) :
  (getFromEnv process_env key None = Return (Entry v) <->
   process_env !! key = Some v /\ v <> "") /\
  (getFromEnv process_env key (Some source) = Return (Entry v) <->
   source !! key = Some v /\ v <> "") /\
  (getFromEnv process_env key None = Return (Inherited v) <->
   v = key /\ process_env !! key = None /\ In key Object_prototype) /\
  (getFromEnv process_env key (Some source) = Return (Inherited v) <->
   v = key /\ source !! key = None /\ In key Object_prototype).
Proof.
  assert (Hsame : getFromEnv process_env key None
                  = getFromEnv process_env key (Some process_env)) by reflexivity.
  assert (Hentry : forall env : gmap string string,
            getFromEnv process_env key (Some env) = Return (Entry v) <->
            env !! key = Some v /\ v <> "").
  { intros env. rewrite getFromEnv_cases.
    destruct (env !! key) as [w |].
    - destruct (String.eqb w "") eqn:E.
      + apply String.eqb_eq in E. subst w. split; [discriminate |].
        intros [Hw Hne]. injection Hw as <-. contradiction.
      + apply String.eqb_neq in E. split.
        * intros Hw. injection Hw as <-. auto.
        * intros [Hw _]. injection Hw as <-. reflexivity.
    - destruct (existsb (String.eqb key) Object_prototype);
        (split; [discriminate | intros [Hw _]; discriminate]). }
  assert (Hinherited : forall env : gmap string string,
            getFromEnv process_env key (Some env) = Return (Inherited v) <->
            v = key /\ env !! key = None /\ In key Object_prototype).
  { intros env. rewrite getFromEnv_cases. rewrite <- inherits_iff.
    destruct (env !! key) as [w |].
    - destruct (String.eqb w "");
        (split; [discriminate | intros (_ & Hw & _); discriminate]).
    - destruct (existsb (String.eqb key) Object_prototype).
      + split.
        * intros H. injection H as <-. auto.
        * intros (-> & _ & _). reflexivity.
      + split; [discriminate | intros (_ & _ & H); discriminate]. }
  rewrite Hsame.
  split; [apply Hentry | split; [apply Hentry | split; apply Hinherited]].
Qed.

Lemma split_nonempty (sep : ascii -> bool) (s : string) : split sep s <> [].
Proof.
  destruct s as [| c rest]; cbn; [discriminate |].
  destruct (sep c); [discriminate |].
  destruct (split sep rest); discriminate.
Qed.

Lemma split_pieces_clean (sep : ascii -> bool) (s piece : string) :
  In piece (split sep s) -> contains sep piece = false.
Proof.
  revert piece. induction s as [| c rest IH]; intros piece Hin.
  - destruct Hin as [<- | []]. reflexivity.
  - cbn [split] in Hin. destruct (sep c) eqn:Hc.
    + destruct Hin as [<- | Hin]; [reflexivity | apply IH, Hin].
    + destruct (split sep rest) as [| first pieces] eqn:Hsplit.
      * destruct Hin as [<- | []]. cbn. rewrite Hc. reflexivity.
      * destruct Hin as [<- | Hin].
        -- cbn. rewrite Hc. apply IH. left. reflexivity.
        -- apply IH. right. exact Hin.
Qed.

Lemma split_no_separator (sep : ascii -> bool) (s : string) :
  contains sep s = false -> split sep s = [s].
Proof.
  induction s as [| c rest IH]; [reflexivity |].
  cbn. intros H. apply orb_false_iff in H as [Hc Hrest].
  rewrite Hc, (IH Hrest). reflexivity.
Qed.

Lemma split_trailing_separator (sep : ascii -> bool) (s : string) (c : ascii) :
  sep c = true -> split sep (s ++ String c "") = split sep s ++ [""].
Proof.
  intros Hc. induction s as [| a rest IH]; simpl.
  - rewrite Hc. reflexivity.
  - rewrite IH. destruct (sep a); [reflexivity |].
    pose proof (split_nonempty sep rest) as Hne.
    destruct (split sep rest) as [| piece pieces]; [contradiction | reflexivity].
Qed.

(** X18: for a header that is present and not empty, no locale [withLocale]
    returns contains a comma or a semicolon, and none starts with [q]. *)
Theorem withLocale_locales_clean (request : Request.t) (h locale : string) :
  Headers.get (Request.headers request) "accepted-language" = Some h ->
  h <> "" ->
  In locale (withLocale request) ->
  contains comma_or_semicolon locale = false /\ startsWith locale "q" = false.
Proof.
  intros Hget Hne Hin.
  rewrite (withLocale_present request h Hget Hne) in Hin.
  apply filter_In in Hin as [Hin Hkeep]. split.
  - exact (split_pieces_clean _ _ _ Hin).
  - destruct (startsWith locale "q"); [discriminate | reflexivity].
Qed.

Lemma withLocale_locales_clean_witness :
  contains comma_or_semicolon "fr" = false /\ startsWith "fr" "q" = false.
Proof.
  apply (withLocale_locales_clean request_en_fr "en-US,fr;q=0.8" "fr").
  - reflexivity.
  - discriminate.
  - right. left. reflexivity.
Defined.

(** X19: a header that is a single tag, with no comma and no semicolon, is
    returned as the one locale, unless it starts with [q], in which case the
    list is empty. *)
Theorem withLocale_single_tag (request : Request.t) (h : string) :
  Headers.get (Request.headers request) "accepted-language" = Some h ->
  h <> "" ->
  contains comma_or_semicolon h = false ->
  withLocale request = if startsWith h "q" then [] else [h].
Proof.
  intros Hget Hne Hclean.
  rewrite (withLocale_present request h Hget Hne), (split_no_separator _ _ Hclean).
  cbn. destruct (startsWith h "q"); reflexivity.
Qed.

Lemma withLocale_single_tag_witness :
  withLocale (get_with (Headers.push [] "Accepted-Language" "pt-BR")) = ["pt-BR"].
Proof.
  exact (withLocale_single_tag
           (get_with (Headers.push [] "Accepted-Language" "pt-BR")) "pt-BR"
           eq_refl ltac:(discriminate) eq_refl).
Defined.

(** X20: empty segments are kept: a header that ends in a comma or a
    semicolon gives a list that ends in the empty string. *)
Theorem withLocale_trailing_separator (request : Request.t) (h : string) (c : ascii) :
  Headers.get (Request.headers request) "accepted-language"
    = Some (h ++ String c "")%string ->
  comma_or_semicolon c = true ->
  exists locales, withLocale request = locales ++ [""].
Proof.
  intros Hget Hc.
  assert (Hne : (h ++ String c "")%string <> "") by (destruct h; discriminate).
  rewrite (withLocale_present request _ Hget Hne), (split_trailing_separator _ _ _ Hc).
  rewrite List.filter_app. cbn. eexists. reflexivity.
Qed.

Lemma withLocale_trailing_separator_witness :
  exists locales,
    withLocale (get_with (Headers.push [] "accepted-language" "en-US,")) = locales ++ [""].
Proof.
  exact (withLocale_trailing_separator
           (get_with (Headers.push [] "accepted-language" "en-US,")) "en-US" ","
           eq_refl eq_refl).
Defined.
